(** * VisionEarth: globe viewer bootstrap, layer switching and weather marker

    Shallow embedding of the Cesium glue code of the VisionEarth front end:
    - [src/frontend/src/pages/EarthViewerPage.tsx], first component
      (lines 1-727, called "v1" below) and second component (lines 729-1396,
      "v3");
    - [src/unnamed/part_007], the GIBS variant of the same page ("v2");
    - [src/unnamed/part_000], the cesium-loader script;
    - [src/frontend/src/pages/SimpleEarthViewer.tsx], the WebGL check.

    JavaScript code that may throw is written in a small state-and-exception
    monad: a computation takes the state and returns an outcome together
    with the state reached, so that effects done before a [throw] are kept,
    as they are in JavaScript.  The third-party library (Cesium) and the
    browser are modelled by the few observable effects the code relies on:
    the imagery-layer collection, the entity collection, the camera, the
    destroyed flag of the viewer, script tags of the document and the
    readiness promise.  Whether a Cesium constructor throws is an input of
    the model ([env]). *)

From Stdlib Require Import Bool Arith Lia String QArith Qround ZArith List.
From Stdlib Require Import Lqa.
Import ListNotations.
Open Scope string_scope.
Open Scope list_scope.

(** ** The state-and-exception monad *)

Inductive exn : Type :=
| TypeError        (* property access on null / undefined *)
| DeveloperError   (* Cesium: method call on a destroyed object *)
| ProviderError    (* an imagery provider constructor threw *)
| NetworkError     (* fetch rejected / HTTP error *)
| ScriptLoadError. (* script onerror or load timeout *)

Inductive outcome (A : Type) : Type :=
| Ok (a : A)
| Exc (e : exn).
Arguments Ok {A} a.
Arguments Exc {A} e.

Definition M (S A : Type) : Type := S -> outcome A * S.

Section Monad.
Context {S : Type}.

Definition ret {A} (a : A) : M S A := fun s => (Ok a, s).

Definition bind {A B} (m : M S A) (k : A -> M S B) : M S B :=
  fun s => match m s with
           | (Ok a, s') => k a s'
           | (Exc e, s') => (Exc e, s')
           end.

Definition throw {A} (e : exn) : M S A := fun s => (Exc e, s).

(** [try { m } catch (e) { h e }] *)
Definition try_catch {A} (m : M S A) (h : exn -> M S A) : M S A :=
  fun s => match m s with
           | (Exc e, s') => h e s'
           | r => r
           end.

(** [try { m } finally { f }] *)
Definition try_finally {A} (m : M S A) (f : M S unit) : M S A :=
  fun s => match m s with
           | (r, s') => match f s' with
                        | (Ok _, s'') => (r, s'')
                        | (Exc e, s'') => (Exc e, s'')
                        end
           end.

Definition gets {A} (f : S -> A) : M S A := fun s => (Ok (f s), s).
Definition modify (f : S -> S) : M S unit := fun s => (Ok tt, f s).
End Monad.

Notation "x <- c1 ;; c2" := (bind c1 (fun x => c2))
  (at level 61, c1 at next level, right associativity).
Notation "c1 ;; c2" := (bind c1 (fun _ => c2))
  (at level 61, right associativity).

(** ** Cesium objects as the page sees them *)

Inductive color : Type := BLUE | CYAN | WHITE | RED | GREEN | LIGHTGREEN | PURPLE.

(** The imagery providers constructed by the three switch functions. *)
Inductive provider : Type :=
| IonImagery (assetId : nat)                 (* IonImageryProvider *)
| SingleTile (url : string)                  (* SingleTileImageryProvider *)
| GridImagery (cells : nat) (c : color)      (* GridImageryProvider *)
| GibsTrueColor                              (* WebMapTileServiceImageryProvider, NASA GIBS *)
| NaturalEarthII (maximumLevel : option nat) (* TileMapServiceImageryProvider *)
| OpenStreetMap (url : string).              (* OpenStreetMapImageryProvider *)

(** An imagery layer; [alpha] is the one presentation attribute kept
    (brightness, contrast, hue, ... are plain property writes that never
    throw and that no property below depends on). *)
Record layer : Type := mkLayer { lid : nat; lprov : provider; alpha : Q }.

Record weather : Type := mkWeather {
  temperature : Q; windspeed : Q; winddirection : Q; weathercode : Z; time : string }.

(** An entity added by [addWeatherMarker]: position (lon, lat), icon URL,
    label temperature. *)
Record entity : Type := mkEntity {
  eid : nat; e_pos : Q * Q; e_icon : string; e_label : Z }.

Record viewer : Type := mkViewer {
  v_destroyed : bool;
  v_layers : list layer;          (* viewer.imageryLayers *)
  v_entities : list entity;       (* viewer.entities *)
  v_height : Q;                   (* camera.positionCartographic.height *)
  v_flights : list (Q * Q * Q);   (* camera.flyTo destinations *)
  v_material : option color;      (* scene.globe.material *)
  v_renders : nat }.              (* scene.requestRender calls *)

(** React state and refs of the page component. *)
Record page : Type := mkPage {
  viewerRef : option viewer;
  activeLayer : string;
  error : option string;
  weatherEntityRef : option entity;
  weatherData : option weather;
  weatherLoading : bool;
  weatherError : option string;
  selectedLocation : option (Q * Q * string);
  requests : list (Q * Q);        (* getCurrentWeather calls issued *)
  next_id : nat }.                (* fresh object identities *)

(** Behaviour of the library at run time: which constructors throw. *)
Record env : Type := mkEnv {
  ctor_ok : provider -> bool;
  grid_defined : bool;            (* window.Cesium.GridImageryProvider *)
  material_ok : bool }.           (* Material.fromType does not throw *)

Definition set_viewerRef (o : option viewer) (p : page) : page :=
  mkPage o (activeLayer p) (error p) (weatherEntityRef p) (weatherData p)
    (weatherLoading p) (weatherError p) (selectedLocation p) (requests p) (next_id p).
Definition set_activeLayer (a : string) (p : page) : page :=
  mkPage (viewerRef p) a (error p) (weatherEntityRef p) (weatherData p)
    (weatherLoading p) (weatherError p) (selectedLocation p) (requests p) (next_id p).
Definition set_error (e : option string) (p : page) : page :=
  mkPage (viewerRef p) (activeLayer p) e (weatherEntityRef p) (weatherData p)
    (weatherLoading p) (weatherError p) (selectedLocation p) (requests p) (next_id p).
Definition set_weatherEntityRef (r : option entity) (p : page) : page :=
  mkPage (viewerRef p) (activeLayer p) (error p) r (weatherData p)
    (weatherLoading p) (weatherError p) (selectedLocation p) (requests p) (next_id p).
Definition set_weatherData (d : option weather) (p : page) : page :=
  mkPage (viewerRef p) (activeLayer p) (error p) (weatherEntityRef p) d
    (weatherLoading p) (weatherError p) (selectedLocation p) (requests p) (next_id p).
Definition set_weatherLoading (b : bool) (p : page) : page :=
  mkPage (viewerRef p) (activeLayer p) (error p) (weatherEntityRef p) (weatherData p)
    b (weatherError p) (selectedLocation p) (requests p) (next_id p).
Definition set_weatherError (e : option string) (p : page) : page :=
  mkPage (viewerRef p) (activeLayer p) (error p) (weatherEntityRef p) (weatherData p)
    (weatherLoading p) e (selectedLocation p) (requests p) (next_id p).
Definition set_selectedLocation (l : option (Q * Q * string)) (p : page) : page :=
  mkPage (viewerRef p) (activeLayer p) (error p) (weatherEntityRef p) (weatherData p)
    (weatherLoading p) (weatherError p) l (requests p) (next_id p).
Definition add_request (r : Q * Q) (p : page) : page :=
  mkPage (viewerRef p) (activeLayer p) (error p) (weatherEntityRef p) (weatherData p)
    (weatherLoading p) (weatherError p) (selectedLocation p) (requests p ++ [r]) (next_id p).
Definition bump_id (p : page) : page :=
  mkPage (viewerRef p) (activeLayer p) (error p) (weatherEntityRef p) (weatherData p)
    (weatherLoading p) (weatherError p) (selectedLocation p) (requests p) (S (next_id p)).

Definition map_viewer (f : viewer -> viewer) (p : page) : page :=
  set_viewerRef (option_map f (viewerRef p)) p.

Definition with_layers (l : list layer) (v : viewer) : viewer :=
  mkViewer (v_destroyed v) l (v_entities v) (v_height v) (v_flights v) (v_material v) (v_renders v).
Definition with_entities (l : list entity) (v : viewer) : viewer :=
  mkViewer (v_destroyed v) (v_layers v) l (v_height v) (v_flights v) (v_material v) (v_renders v).
Definition with_height (h : Q) (v : viewer) : viewer :=
  mkViewer (v_destroyed v) (v_layers v) (v_entities v) h (v_flights v) (v_material v) (v_renders v).
Definition with_flight (d : Q * Q * Q) (v : viewer) : viewer :=
  mkViewer (v_destroyed v) (v_layers v) (v_entities v) (v_height v) (v_flights v ++ [d])
    (v_material v) (v_renders v).
Definition with_material (c : color) (v : viewer) : viewer :=
  mkViewer (v_destroyed v) (v_layers v) (v_entities v) (v_height v) (v_flights v)
    (Some c) (v_renders v).
Definition with_render (v : viewer) : viewer :=
  mkViewer (v_destroyed v) (v_layers v) (v_entities v) (v_height v) (v_flights v)
    (v_material v) (S (v_renders v)).
Definition mark_destroyed (v : viewer) : viewer :=
  mkViewer true (v_layers v) (v_entities v) (v_height v) (v_flights v) (v_material v) (v_renders v).

(** [viewerRef.current && !viewerRef.current.isDestroyed()] *)
Definition live (p : page) : bool :=
  match viewerRef p with
  | Some v => negb (v_destroyed v)
  | None => false
  end.

(** Reaching the viewer: [viewerRef.current.x] on [null] is a TypeError,
    a method of a destroyed Cesium object throws a DeveloperError. *)
Definition the_viewer : M page viewer :=
  fun p => match viewerRef p with
           | None => (Exc TypeError, p)
           | Some v => if v_destroyed v then (Exc DeveloperError, p) else (Ok v, p)
           end.

(** ** The imagery-layer collection *)

(** [imageryLayers.get(i)]: [undefined] out of range. *)
Definition ilc_get (l : list layer) (i : nat) : option layer := nth_error l i.

(** [imageryLayers.remove(x)]: removes the layer at [indexOf(x)], nothing
    when [x] is not in the collection (or is [undefined]).  Layers are
    objects, compared by identity [lid]. *)
Fixpoint remove_first (x : layer) (l : list layer) : list layer :=
  match l with
  | [] => []
  | y :: ys => if Nat.eqb (lid y) (lid x) then ys else y :: remove_first x ys
  end.

Definition ilc_remove (x : option layer) (l : list layer) : list layer :=
  match x with
  | None => l
  | Some y => remove_first y l
  end.

(** v1, EarthViewerPage.tsx lines 159-163:
    [while (imageryLayers.length > 1) imageryLayers.remove(imageryLayers.get(1));]
    The loop runs at most [length l] times (each turn removes one layer);
    [fuel] bounds it, and [remove_above_base_fuel] shows more fuel changes
    nothing. *)
Fixpoint remove_above_base (fuel : nat) (l : list layer) : list layer :=
  match fuel with
  | O => l
  | S f => if Nat.ltb 1 (length l) then remove_above_base f (ilc_remove (ilc_get l 1) l) else l
  end.

(** v2 (part_007 lines 199-202) and v3 (EarthViewerPage.tsx lines 930-933):
    [while (imageryLayers.length > 0) imageryLayers.remove(imageryLayers.get(0));] *)
Fixpoint remove_from_front (fuel : nat) (l : list layer) : list layer :=
  match fuel with
  | O => l
  | S f => if Nat.ltb 0 (length l) then remove_from_front f (ilc_remove (ilc_get l 0) l) else l
  end.

Definition modify_layers (f : list layer -> list layer) : M page unit :=
  v <- the_viewer ;; modify (map_viewer (with_layers (f (v_layers v)))).

(** The removal phases of the switch functions. *)
Definition clear_layers_v1 : M page unit :=
  modify_layers (fun l => remove_above_base (length l) l).
Definition clear_layers_front : M page unit :=
  modify_layers (fun l => remove_from_front (length l) l).

(** [imageryLayers.addImageryProvider(new P(...))]: the constructor may
    throw; otherwise a fresh layer (alpha 1) is appended and returned. *)
Definition add_provider (E : env) (pr : provider) : M page layer :=
  v <- the_viewer ;;
  if ctor_ok E pr then
    fun p => let x := mkLayer (next_id p) pr 1%Q in
             (Ok x, bump_id (map_viewer (with_layers (v_layers v ++ [x])) p))
  else throw ProviderError.

(** [layer.alpha = a] on a layer object held by the collection. *)
Definition set_alpha (x : layer) (a : Q) : M page unit :=
  v <- the_viewer ;;
  modify (map_viewer (with_layers
    (map (fun y => if Nat.eqb (lid y) (lid x) then mkLayer (lid y) (lprov y) a else y)
         (v_layers v)))).

Definition request_render : M page unit :=
  _ <- the_viewer ;; modify (map_viewer with_render).

(** The layer names of the options panel, decoded as the [switch]
    statements compare them ([===] on strings). *)
Inductive layer_name : Type :=
| NSatellite | NLive | NHD | NRadar | NPrecipitation | NWind
| NTemperature | NHumidity | NPressure | NClouds | NOther.

Definition decode (s : string) : layer_name :=
  if String.eqb s "Satellite" then NSatellite
  else if String.eqb s "Live" then NLive
  else if String.eqb s "HD" then NHD
  else if String.eqb s "Radar" then NRadar
  else if String.eqb s "Precipitation" then NPrecipitation
  else if String.eqb s "Wind" then NWind
  else if String.eqb s "Temperature" then NTemperature
  else if String.eqb s "Humidity" then NHumidity
  else if String.eqb s "Pressure" then NPressure
  else if String.eqb s "Clouds" then NClouds
  else NOther.

(** ** Layer switching, v1: EarthViewerPage.tsx lines 152-358 *)

Definition add_ion (E : env) (assetId : nat) : M page unit :=
  _ <- add_provider E (IonImagery assetId) ;; ret tt.

(** A base layer followed by an overlay whose alpha is then set. *)
Definition base_and_overlay (E : env) (base : provider) (ov : provider) (a : Q)
  : M page unit :=
  _ <- add_provider E base ;; o <- add_provider E ov ;; set_alpha o a.

Definition goes_url : string :=
  "https://cdn.star.nesdis.noaa.gov/GOES16/ABI/CONUS/GEOCOLOR/latest.jpg".

(** The [switch (layerName)] of lines 166-343. *)
Definition switch_body_v1 (E : env) (name : string) : M page unit :=
  match decode name with
  | NSatellite => add_ion E 2
  | NLive => add_ion E 3
  | NHD => add_ion E 3812
  | NRadar => base_and_overlay E (IonImagery 2) (SingleTile goes_url) (6 # 10)
  | NPrecipitation => base_and_overlay E (IonImagery 2) (GridImagery 4 BLUE) (1 # 2)
  | NWind => base_and_overlay E (IonImagery 2) (GridImagery 8 WHITE) (3 # 10)
  | NTemperature => base_and_overlay E (IonImagery 2) (GridImagery 6 RED) (1 # 2)
  | NHumidity => base_and_overlay E (IonImagery 2) (GridImagery 5 LIGHTGREEN) (4 # 10)
  | NPressure => base_and_overlay E (IonImagery 2) (GridImagery 10 PURPLE) (4 # 10)
  | NClouds | NOther => add_ion E 2
  end.

Definition switchImageryLayer_v1 (E : env) (layerName : string) : M page unit :=
  l <- gets live ;;
  if negb l then ret tt else
  modify (set_activeLayer layerName) ;;
  clear_layers_v1 ;;
  try_catch (switch_body_v1 E layerName)
    (fun _ => try_catch (add_ion E 2) (fun _ => ret tt)).

(** ** Layer switching, v2: part_007 lines 191-316 *)

Definition overlay_color_v2 (n : layer_name) : color :=
  match n with
  | NRadar => BLUE
  | NPrecipitation => CYAN
  | NWind => WHITE
  | NTemperature => RED
  | NHumidity => GREEN
  | NPressure => PURPLE
  | _ => WHITE
  end.

(** [viewer.scene.globe.material = Material.fromType('Color', ...)] *)
Definition set_material (E : env) (c : color) : M page unit :=
  if material_ok E then _ <- the_viewer ;; modify (map_viewer (with_material c))
  else throw ProviderError.

Definition weather_overlay_v2 (E : env) (c : color) : M page unit :=
  (if grid_defined E then
     o <- add_provider E (GridImagery 8 c) ;; set_alpha o (7 # 10)
   else ret tt) ;;
  set_material E c.

(** The [switch (layerName)] of lines 237-307. *)
Definition overlay_v2 (E : env) (name : string) : M page unit :=
  match decode name with
  | NLive =>
      o <- add_provider E (OpenStreetMap "https://a.tile.openstreetmap.org/") ;;
      set_alpha o (1 # 2)
  | NRadar | NPrecipitation | NWind | NTemperature | NHumidity | NPressure =>
      weather_overlay_v2 E (overlay_color_v2 (decode name))
  | NSatellite | NHD | NClouds | NOther => ret tt
  end.

Definition switchImageryLayer_v2 (E : env) (layerName : string) : M page unit :=
  l <- gets live ;;
  if negb l then ret tt else
  modify (set_activeLayer layerName) ;;
  clear_layers_front ;;
  try_catch (_ <- add_provider E GibsTrueColor ;; ret tt)
    (fun _ => _ <- add_provider E (NaturalEarthII None) ;; ret tt) ;;
  try_catch (overlay_v2 E layerName ;; request_render) (fun _ => ret tt).

(** ** Layer switching, v3: EarthViewerPage.tsx lines 920-1039 *)

Definition natural_earth_5 : provider := NaturalEarthII (Some 5%nat).

Definition switchLayer_v3 (E : env) (layerName : string) : M page unit :=
  try_catch
    (r <- gets viewerRef ;;
     match r with
     | None => ret tt   (* console.error('Cannot switch layer ...'); return *)
     | Some _ =>
         modify (set_activeLayer layerName) ;;
         clear_layers_front ;;
         match decode layerName with
         | NTemperature =>
             base_and_overlay E natural_earth_5
               (SingleTile "Assets/Textures/NightLights.png") (1 # 2)
         | NPrecipitation =>
             base_and_overlay E natural_earth_5
               (SingleTile "Assets/Textures/watercolor.jpg") (1 # 2)
         | NClouds =>
             base_and_overlay E natural_earth_5
               (SingleTile "Assets/Textures/moonSmall.jpg") (3 # 10)
         | _ => _ <- add_provider E natural_earth_5 ;; ret tt
         end
     end)
    (fun _ => modify (set_error
       (Some "Failed to switch to the selected layer. Please try again."))).

(** ** Entities and the weather marker, v1: EarthViewerPage.tsx lines 63-150
    (the same code is part_007 lines 102-189) *)

(** [getWeatherIconUrl], lines 132-150. *)
Definition getWeatherIconUrl (code : Z) : string :=
  let iconName :=
    if (code =? 0)%Z then "clear-day"
    else if ((code =? 1) || (code =? 2))%Z then "partly-cloudy-day"
    else if (code =? 3)%Z then "cloudy"
    else if ((code =? 45) || (code =? 48))%Z then "fog"
    else if ((51 <=? code) && (code <=? 57))%Z then "drizzle"
    else if ((61 <=? code) && (code <=? 67))%Z then "rain"
    else if ((71 <=? code) && (code <=? 77))%Z then "snow"
    else if ((80 <=? code) && (code <=? 82))%Z then "rain"
    else if ((85 <=? code) && (code <=? 86))%Z then "snow"
    else if (95 <=? code)%Z then "thunderstorm"
    else "unknown" in
  String.append "https://cdn.weatherapi.com/weather/64x64/day/"
    (String.append iconName ".png").

(** [Math.round(t)] *)
Definition js_round (t : Q) : Z := Qfloor (t + (1 # 2)).

(** [viewer.entities.contains(e)] and [viewer.entities.remove(e)]: by the
    entity's id. *)
Definition ent_contains (e : entity) (l : list entity) : bool :=
  existsb (fun x => Nat.eqb (eid x) (eid e)) l.

Fixpoint ent_remove (e : entity) (l : list entity) : list entity :=
  match l with
  | [] => []
  | x :: xs => if Nat.eqb (eid x) (eid e) then xs else x :: ent_remove e xs
  end.

(** [viewer.entities.add({...})]: a new entity with a fresh id. *)
Definition ent_add (pos : Q * Q) (icon : string) (label : Z) : M page entity :=
  v <- the_viewer ;;
  fun p => let e := mkEntity (next_id p) pos icon label in
           (Ok e, bump_id (map_viewer (with_entities (v_entities v ++ [e])) p)).

Definition addWeatherMarker (lat lon : Q) (w : weather) : M page unit :=
  l <- gets live ;;
  if negb l then ret tt else
  r <- gets weatherEntityRef ;;
  (match r with
   | Some e =>
       v <- the_viewer ;;
       if ent_contains e (v_entities v)
       then modify (map_viewer (with_entities (ent_remove e (v_entities v))))
       else ret tt
   | None => ret tt
   end) ;;
  let iconUrl := getWeatherIconUrl (weathercode w) in
  e <- ent_add (lon, lat) iconUrl (js_round (temperature w)) ;;
  modify (set_weatherEntityRef (Some e)) ;;
  _ <- the_viewer ;;
  modify (map_viewer (with_flight (lon, lat, 1000000))).

(** The result of the awaited [getCurrentWeather(lat, lon)]. *)
Inductive response : Type :=
| Success (w : weather)
| Failure.

Definition fetch_error_msg : string :=
  "Failed to fetch weather data. Please try again.".

(** [fetchWeatherData] up to its [await] (lines 64-72).  [weatherLoading]
    is the value the calling closure captured when it was rendered. *)
Definition fetchWeatherData_start (weatherLoading : bool) (lat lon : Q) : M page bool :=
  if weatherLoading then ret false else
  modify (set_weatherLoading true) ;;
  modify (set_weatherError None) ;;
  modify (add_request (lat, lon)) ;;
  ret true.

(** [fetchWeatherData] after its [await] (lines 72-85). *)
Definition fetchWeatherData_finish (lat lon : Q) (locationName : string) (r : response)
  : M page unit :=
  try_finally
    (try_catch
       (match r with
        | Failure => throw NetworkError
        | Success data =>
            modify (set_weatherData (Some data)) ;;
            modify (set_selectedLocation (Some (lat, lon, locationName))) ;;
            l <- gets live ;;
            if l then addWeatherMarker lat lon data else ret tt
        end)
       (fun _ => modify (set_weatherError (Some fetch_error_msg))))
    (modify (set_weatherLoading false)).

(** The component's initial state ([useState] defaults, null refs). *)
Definition page_initial : page :=
  mkPage None "Satellite" None None None false None None [] 0.

(** The mount effect ([useEffect(..., [])]) runs once, after the first
    render: the LEFT_CLICK handler and the initial India fetch it sets up
    call the [fetchWeatherData] closure of that render, whose
    [weatherLoading] is the initial one. *)
Definition mount_snapshot : bool := weatherLoading page_initial.

Definition click_fetch (lat lon : Q) : M page bool :=
  fetchWeatherData_start mount_snapshot lat lon.

(** ** Camera and teardown *)

(** [camera.zoomIn(h * 0.2)] / [camera.zoomOut(h * 0.2)], lines 518-533.
    Cesium moves the camera along its view direction, so the height it
    ends at depends on the camera's orientation, which the viewer record
    does not keep: [move h a] is the library's answer, the height after a
    move by [a] from height [h]. *)
Definition camera_move : Type := Q -> Q -> Q.

Definition handleZoomIn (zoomIn : camera_move) : M page unit :=
  l <- gets live ;;
  if l then v <- the_viewer ;;
            modify (map_viewer (with_height (zoomIn (v_height v) (v_height v * (2 # 10)))))
  else ret tt.

Definition handleZoomOut (zoomOut : camera_move) : M page unit :=
  l <- gets live ;;
  if l then v <- the_viewer ;;
            modify (map_viewer (with_height (zoomOut (v_height v) (v_height v * (2 # 10)))))
  else ret tt.

(** [viewer.destroy()]: Cesium's destroyed objects throw on every method
    but [isDestroyed]. *)
Definition viewer_destroy : M page unit :=
  _ <- the_viewer ;; modify (map_viewer mark_destroyed).

(** The effect cleanup, lines 509-515 (same code in v2 and v3). *)
Definition cleanup : M page unit :=
  l <- gets live ;;
  if l then viewer_destroy ;; modify (set_viewerRef None) else ret tt.

(** The viewer constructed by initCesium v1 (lines 423-452): one
    NaturalEarthII imagery layer, no entities. *)
Definition new_viewer (id : nat) : viewer :=
  mkViewer false [mkLayer id (NaturalEarthII None) 1] [] 20000000 [] None 0.

(** Viewer creation in initCesium v1 (lines 417-452): an existing live
    viewer is destroyed first. *)
Definition mount_viewer : M page unit :=
  l <- gets live ;;
  (if l then viewer_destroy ;; modify (set_viewerRef None) else ret tt) ;;
  modify (fun p => bump_id (set_viewerRef (Some (new_viewer (next_id p))) p)).

(** Operations offered on the viewer handle. *)
Inductive viewer_op : Type :=
| OpZoomIn (zoomIn : camera_move)
| OpZoomOut (zoomOut : camera_move)
| OpSwitchV1 (E : env) (name : string)
| OpSwitchV2 (E : env) (name : string)
| OpSwitchV3 (E : env) (name : string)
| OpMarker (lat lon : Q) (w : weather)
| OpTeardown.

Definition run_op (o : viewer_op) : M page unit :=
  match o with
  | OpZoomIn zi => handleZoomIn zi
  | OpZoomOut zo => handleZoomOut zo
  | OpSwitchV1 E n => switchImageryLayer_v1 E n
  | OpSwitchV2 E n => switchImageryLayer_v2 E n
  | OpSwitchV3 E n => switchLayer_v3 E n
  | OpMarker lat lon w => addWeatherMarker lat lon w
  | OpTeardown => cleanup
  end.

(** Events of the page that touch the viewer or the weather state; an
    exception thrown by a handler ends that handler only. *)
Inductive page_event : Type :=
| EvMount
| EvOp (o : viewer_op)
| EvFetchStart (snap : bool) (lat lon : Q)
| EvFetchDone (lat lon : Q) (name : string) (r : response).

Definition step_event (ev : page_event) : M page unit :=
  match ev with
  | EvMount => mount_viewer
  | EvOp o => run_op o
  | EvFetchStart snap lat lon => _ <- fetchWeatherData_start snap lat lon ;; ret tt
  | EvFetchDone lat lon n r => fetchWeatherData_finish lat lon n r
  end.

Fixpoint run_events (p : page) (evs : list page_event) : page :=
  match evs with
  | [] => p
  | ev :: evs' => run_events (snd (step_event ev p)) evs'
  end.

Definition marker_count (p : page) : nat :=
  match viewerRef p with
  | Some v => length (v_entities v)
  | None => 0
  end.

Definition layers_of (p : page) : option (list layer) := option_map v_layers (viewerRef p).

(** ** Concrete inputs used by the examples below *)

Definition E_ok : env := mkEnv (fun _ => true) true true.
Definition E_fail : env := mkEnv (fun _ => false) true true.

Definition L0 : layer := mkLayer 0 (NaturalEarthII None) 1.
Definition L1 : layer := mkLayer 1 (IonImagery 2) 1.

Definition viewer_with (ls : list layer) : viewer :=
  mkViewer false ls [] 20000000 [] None 0.

Definition page_with (ls : list layer) (nid : nat) : page :=
  mkPage (Some (viewer_with ls)) "Satellite" None None None false None None [] nid.

Definition sample_weather : weather := mkWeather 31 12 0 2 "2024-01-01T00:00".

(** ** The cesium-loader script, part_000 lines 1-123, and waitForCesium,
    part_007 lines 56-85 *)

Inductive pstate : Type := Pending | Fulfilled | Rejected.

Definition primary_src : string := "<origin>/cesium/Cesium.js".
Definition fallback_src : string := "./cesium/Cesium.js".

Record loader : Type := mkLoader {
  cesium : bool;                 (* typeof window.Cesium !== 'undefined' *)
  loaded : bool;                 (* window.CESIUM_LOADED *)
  ready : pstate;                (* window.CESIUM_READY *)
  tags : list string;            (* script tags appended to document.head *)
  waiters : list (option bool) }. (* waitForCesium calls: None while suspended *)

(** What [await window.CESIUM_READY] gives a waitForCesium call: [true],
    or [false] from its [catch]. *)
Definition awaited (v : pstate) : option bool :=
  match v with
  | Pending => None
  | Fulfilled => Some true
  | Rejected => Some false
  end.

(** [CESIUM_RESOLVE] / [CESIUM_REJECT]: a promise settles once; the calls
    suspended on it all resume with its value. *)
Definition settle (v : pstate) (s : loader) : loader :=
  match ready s with
  | Pending =>
      mkLoader (cesium s) (loaded s) v (tags s)
        (map (fun w => match w with None => awaited v | Some b => Some b end) (waiters s))
  | _ => s
  end.

Definition set_loaded (s : loader) : loader :=
  mkLoader (cesium s) true (ready s) (tags s) (waiters s).
Definition set_cesium (b : bool) (s : loader) : loader :=
  mkLoader (cesium s || b) (loaded s) (ready s) (tags s) (waiters s).
Definition append_tag (src : string) (s : loader) : loader :=
  mkLoader (cesium s) (loaded s) (ready s) (tags s ++ [src]) (waiters s).
Definition add_waiter (w : option bool) (s : loader) : loader :=
  mkLoader (cesium s) (loaded s) (ready s) (tags s) (waiters s ++ [w]).

(** [loadCesium()], lines 13-105: append the primary script tag (its
    30 s timeout is the [LoadTimeout] event). *)
Definition loadCesium (s : loader) : loader := append_tag primary_src s.

(** Lines 3-10 and 107-123: the state after the script's top level ran. *)
Definition loader_init (cesium_present : bool) : loader :=
  let s := mkLoader cesium_present false Pending [] [] in
  if cesium_present then settle Fulfilled (set_loaded s) else loadCesium s.

Inductive loader_event : Type :=
| WindowLoad                              (* the window 'load' listener *)
| ScriptLoad (i : nat) (defines : bool)   (* onload of tag i; window.Cesium then defined? *)
| ScriptFail (i : nat)                    (* onerror of tag i *)
| LoadTimeout                             (* the 30 s timer of loadCesium *)
| AwaitReady.                             (* a call of waitForCesium *)

(** The onload handlers: primary tag lines 27-37, fallback tag lines 52-62. *)
Definition on_script_load (src : string) (s : loader) : loader :=
  if String.eqb src primary_src then
    (if cesium s then settle Fulfilled (set_loaded s) else append_tag fallback_src s)
  else
    (if cesium s then settle Fulfilled (set_loaded s) else settle Rejected s).

(** The onerror handlers: lines 39-42 and 64-67. *)
Definition on_script_error (src : string) (s : loader) : loader :=
  if String.eqb src primary_src then append_tag fallback_src s else settle Rejected s.

Definition loader_step (e : loader_event) (s : loader) : loader :=
  match e with
  | WindowLoad => if loaded s then s else loadCesium s
  | ScriptLoad i b =>
      match nth_error (tags s) i with
      | Some src => on_script_load src (set_cesium b s)
      | None => s
      end
  | ScriptFail i =>
      match nth_error (tags s) i with
      | Some src => on_script_error src s
      | None => s
      end
  | LoadTimeout =>
      if loaded s then s
      else if cesium s then settle Fulfilled (set_loaded s) else settle Rejected s
  | AwaitReady =>
      (* isCesiumLoaded(): window.Cesium defined and CESIUM_LOADED === true *)
      if cesium s && loaded s then add_waiter (Some true) s
      else add_waiter (awaited (ready s)) s
  end.

Fixpoint run_loader (s : loader) (evs : list loader_event) : loader :=
  match evs with
  | [] => s
  | e :: evs' => run_loader (loader_step e s) evs'
  end.

(** ** Page initialisation *)

Inductive boot_action : Type :=
| AProbe            (* isWebGLSupported() *)
| AInjectScript     (* a loader script tag appended to document.head *)
| AWaitLibrary      (* waiting for the library to be loaded *)
| AConstructViewer. (* new Cesium.Viewer(...) *)

Record boot : Type := mkBoot {
  b_cesium : bool;                (* window.Cesium defined *)
  b_tags : list string;           (* script tags appended by initCesium *)
  b_viewer : bool;                (* viewerRef.current holds a constructed viewer *)
  b_error : option string;
  b_loading : bool;
  b_log : list boot_action }.

(** What the browser answers during initialisation. *)
Record boot_env : Type := mkBootEnv {
  webgl : bool;           (* isWebGLSupported() *)
  script_loads : bool;    (* the injected script fires onload (else onerror / timeout) *)
  script_defines : bool;  (* window.Cesium is defined once that script ran *)
  library_ready : bool;   (* await waitForCesium() gives true *)
  container : bool;       (* cesiumContainerRef.current is non-null *)
  ion_ok : bool;          (* window.Cesium.Ion is defined *)
  viewer_ok : bool;       (* new Cesium.Viewer(...) does not throw *)
  cesium_by : nat -> bool }.
    (* window.Cesium is defined once the k-th 100 ms sleep of the second
       component's wait loop is over (another script, such as the
       cesium-loader, may define it meanwhile) *)

Definition blog (a : boot_action) (b : boot) : boot :=
  mkBoot (b_cesium b) (b_tags b) (b_viewer b) (b_error b) (b_loading b) (b_log b ++ [a]).
Definition bset_error (e : string) (b : boot) : boot :=
  mkBoot (b_cesium b) (b_tags b) (b_viewer b) (Some e) (b_loading b) (b_log b).
Definition bset_loading (l : bool) (b : boot) : boot :=
  mkBoot (b_cesium b) (b_tags b) (b_viewer b) (b_error b) l (b_log b).
Definition bset_viewer (b : boot) : boot :=
  mkBoot (b_cesium b) (b_tags b) true (b_error b) (b_loading b) (b_log b).
Definition bset_cesium (c : bool) (b : boot) : boot :=
  mkBoot (b_cesium b || c) (b_tags b) (b_viewer b) (b_error b) (b_loading b) (b_log b).
Definition binject (src : string) (b : boot) : boot :=
  mkBoot (b_cesium b) (b_tags b ++ [src]) (b_viewer b) (b_error b) (b_loading b)
    (b_log b ++ [AInjectScript]).

Definition fail_with (msg : string) : M boot unit :=
  modify (bset_error msg) ;; modify (bset_loading false).

Definition probe_step (be : boot_env) : M boot bool :=
  modify (blog AProbe) ;; ret (webgl be).

Definition construct_viewer (be : boot_env) : M boot unit :=
  modify (blog AConstructViewer) ;;
  if viewer_ok be then modify bset_viewer else throw TypeError.

(** [while (!window.Cesium && attempts < 50) { await sleep(100); attempts++ }],
    lines 1091-1095, with [left = 50 - attempts] turns to go; during the
    sleep of turn [attempts] window.Cesium may become defined. *)
Fixpoint poll_cesium (be : boot_env) (left : nat) : M boot unit :=
  match left with
  | O => ret tt
  | S l => c <- gets b_cesium ;;
           if c then ret tt
           else modify (bset_cesium (cesium_by be (50 - left)%nat)) ;; poll_cesium be l
  end.

(** initCesium of EarthViewerPage.tsx, second component, lines 1043-1165. *)
Definition initCesium_v3 (be : boot_env) : M boot unit :=
  try_catch
    (ok <- probe_step be ;;
     if negb ok then
       fail_with "WebGL is not supported in your browser. Please try a different browser."
     else
     c <- gets b_cesium ;;
     cont <- (if c then ret true else
               try_catch
                 (modify (binject "/cesium/Cesium.js") ;;
                  modify (blog AWaitLibrary) ;;
                  if script_loads be then modify (bset_cesium (script_defines be)) ;; ret true
                  else throw ScriptLoadError)
                 (fun _ => fail_with "Failed to load Cesium. Please refresh the page and try again." ;;
                           ret false)) ;;
     if negb cont then ret tt else
     poll_cesium be 50 ;;
     c' <- gets b_cesium ;;
     if negb c' then
       fail_with "Failed to load Cesium. Please refresh the page and try again."
     else
     (* line 1108: [window.Cesium.Ion.defaultAccessToken = ...] is a
        TypeError when [Cesium.Ion] is undefined *)
     (if ion_ok be then ret tt else throw TypeError) ;;
     v <- gets b_viewer ;;
     if container be && negb v then
       try_catch (construct_viewer be ;; modify (bset_loading false))
         (fun _ => fail_with "Failed to create Earth viewer. Please refresh the page and try again.")
     else ret tt)
    (fun _ => fail_with "Failed to initialize Earth viewer. Please refresh the page and try again.").

(** initCesium of part_007, lines 326-497 (the scene set-up after the
    constructor is reduced to its possible exception). *)
Definition initCesium_v2 (be : boot_env) : M boot unit :=
  try_catch
    (modify (blog AWaitLibrary) ;;
     if negb (library_ready be) then
       fail_with "Cesium library not loaded. Please check your internet connection and reload the page."
     else
     ok <- probe_step be ;;
     if negb ok then
       fail_with "WebGL is not supported or enabled in your browser. Please enable WebGL or try a different browser."
     else
     if negb (container be) then
       fail_with "Failed to initialize the Earth viewer. Container element not found."
     else
     if negb (ion_ok be) then
       fail_with "Failed to set Cesium access token. Please check your configuration."
     else
     try_catch (construct_viewer be ;; modify (bset_loading false))
       (fun _ => fail_with "Failed to initialize the Earth viewer. Please check your browser compatibility and try again."))
    (fun _ => fail_with "An error occurred during initialization. Please reload the page.").

(** The second EarthViewerPage component renders SimpleEarthViewerFallback
    whenever [error] is set (line 1212). *)
Definition renders_fallback_v3 (b : boot) : bool :=
  match b_error b with Some _ => true | None => false end.

(** Mount state: no library yet, no viewer, spinner on. *)
Definition boot_initial : boot := mkBoot false [] false None true [].

(** ** The WebGL probe *)

Inductive jsval : Type :=
| JUndefined | JNull | JFalse | JTrue
| JConstructor            (* window.WebGLRenderingContext *)
| JContext (kind : string). (* a rendering context *)

Definition truthy (v : jsval) : bool :=
  match v with JUndefined | JNull | JFalse => false | _ => true end.

Definition of_bool (b : bool) : jsval := if b then JTrue else JFalse.

Record probe_env : Type := mkProbeEnv {
  create_canvas : outcome unit;            (* document.createElement('canvas') *)
  has_WebGLRenderingContext : bool;        (* window.WebGLRenderingContext *)
  get_context : string -> outcome jsval }. (* canvas.getContext(kind) *)

Definition lift {S A} (o : outcome A) : M S A := fun s => (o, s).

(** [a || b] and [a && b] on JavaScript values. *)
Definition js_or {S} (a : M S jsval) (b : M S jsval) : M S jsval :=
  x <- a ;; if truthy x then ret x else b.
Definition js_and {S} (a : M S jsval) (b : M S jsval) : M S jsval :=
  x <- a ;; if truthy x then b else ret x.

Definition window_WGL (pe : probe_env) : jsval :=
  if has_WebGLRenderingContext pe then JConstructor else JUndefined.

(** Body of [isWebGLSupported], EarthViewerPage.tsx lines 52-57 (also
    part_007 lines 91-96). *)
Definition probe_body_v1 (pe : probe_env) : M unit jsval :=
  _ <- lift (create_canvas pe) ;;
  js_and (ret (window_WGL pe))
    (js_or (lift (get_context pe "webgl")) (lift (get_context pe "experimental-webgl"))).

Definition isWebGLSupported_v1 (pe : probe_env) : M unit jsval :=
  try_catch (probe_body_v1 pe) (fun _ => ret JFalse).

(** [isWebGLSupported], EarthViewerPage.tsx lines 824-832: [!!(...)]. *)
Definition probe_body_v3 (pe : probe_env) : M unit jsval :=
  _ <- lift (create_canvas pe) ;;
  x <- js_and (ret (window_WGL pe))
         (js_or (lift (get_context pe "webgl")) (lift (get_context pe "experimental-webgl"))) ;;
  ret (of_bool (truthy x)).

Definition isWebGLSupported_v3 (pe : probe_env) : M unit jsval :=
  try_catch (probe_body_v3 pe) (fun _ => ret JFalse).

(** [checkWebGLSupport], SimpleEarthViewer.tsx lines 194-204. *)
Definition probe_body_simple (pe : probe_env) : M unit jsval :=
  _ <- lift (create_canvas pe) ;;
  gl <- js_or (lift (get_context pe "webgl")) (lift (get_context pe "experimental-webgl")) ;;
  ret (of_bool (truthy gl)).

Definition checkWebGLSupport (pe : probe_env) : M unit jsval :=
  try_catch (probe_body_simple pe) (fun _ => ret JFalse).

(** ** Weather icons and descriptions *)

(** [getWeatherIconUrl] of the second EarthViewerPage component, lines
    898-917. *)
Definition getWeatherIconUrl_v3 (code : Z) : string :=
  if (code <? 300)%Z then "https://cdn.weatherapi.com/weather/64x64/day/386.png"
  else if (code <? 500)%Z then "https://cdn.weatherapi.com/weather/64x64/day/263.png"
  else if (code <? 600)%Z then "https://cdn.weatherapi.com/weather/64x64/day/308.png"
  else if (code <? 700)%Z then "https://cdn.weatherapi.com/weather/64x64/day/338.png"
  else if (code <? 800)%Z then "https://cdn.weatherapi.com/weather/64x64/day/248.png"
  else if (code =? 800)%Z then "https://cdn.weatherapi.com/weather/64x64/day/113.png"
  else "https://cdn.weatherapi.com/weather/64x64/day/116.png".

(** The [weatherCodes] table of [getWeatherDescription], part_000 lines
    226-255. *)
Definition weatherCodes : list (Z * string) :=
  [(0, "Clear sky"); (1, "Mainly clear"); (2, "Partly cloudy"); (3, "Overcast");
   (45, "Fog"); (48, "Depositing rime fog");
   (51, "Light drizzle"); (53, "Moderate drizzle"); (55, "Dense drizzle");
   (56, "Light freezing drizzle"); (57, "Dense freezing drizzle");
   (61, "Slight rain"); (63, "Moderate rain"); (65, "Heavy rain");
   (66, "Light freezing rain"); (67, "Heavy freezing rain");
   (71, "Slight snow fall"); (73, "Moderate snow fall"); (75, "Heavy snow fall");
   (77, "Snow grains");
   (80, "Slight rain showers"); (81, "Moderate rain showers");
   (82, "Violent rain showers");
   (85, "Slight snow showers"); (86, "Heavy snow showers");
   (95, "Thunderstorm"); (96, "Thunderstorm with slight hail");
   (99, "Thunderstorm with heavy hail")]%Z.

(** [weatherCodes[code]]: [undefined] for a key the object lacks. *)
Fixpoint lookup_code (code : Z) (l : list (Z * string)) : option string :=
  match l with
  | [] => None
  | (k, d) :: l' => if (k =? code)%Z then Some d else lookup_code code l'
  end.

(** [getWeatherDescription], part_000 lines 225-259:
    [weatherCodes[code] || 'Unknown'] (the empty string is falsy too). *)
Definition getWeatherDescription (code : Z) : string :=
  match lookup_code code weatherCodes with
  | Some d => if String.eqb d EmptyString then "Unknown" else d
  | None => "Unknown"
  end.

(** The URL the first component's [getWeatherIconUrl] gives for an
    unlisted code. *)
Definition unknown_icon_url : string :=
  "https://cdn.weatherapi.com/weather/64x64/day/unknown.png".

(** ** The stylized globe of SimpleEarthViewer.tsx, lines 11-183 *)

(** JavaScript's [%] on numbers: the remainder of a division truncated
    toward zero, with the sign of the dividend. *)
Definition js_trunc (x : Q) : Z :=
  if Qle_bool 0 x then Qfloor x else (- Qfloor (- x))%Z.

Definition js_mod (x m : Q) : Q := x - m * inject_Z (js_trunc (x / m)).

Record stylized : Type := mkStylized {
  rotation : Q;
  isDragging : bool;
  lastX : Q }.

Definition stylized_initial : stylized := mkStylized 0 false 0.

Inductive st_event : Type :=
| StTick                  (* the 50 ms interval, set up while not dragging *)
| StMouseDown (x : Q)     (* handleMouseDown, e.clientX *)
| StMouseMove (x : Q)     (* handleMouseMove *)
| StMouseUp               (* handleMouseUp, also onMouseLeave *)
| StRandomView (u : Q).   (* the Random View button; u is Math.random() *)

Definition st_step (e : st_event) (s : stylized) : stylized :=
  match e with
  | StTick =>
      if isDragging s then s
      else mkStylized (js_mod (rotation s + (2 # 10)) 360) (isDragging s) (lastX s)
  | StMouseDown x => mkStylized (rotation s) true x
  | StMouseMove x =>
      if isDragging s
      then mkStylized (js_mod (rotation s + (x - lastX s) * (1 # 2)) 360) (isDragging s) x
      else s
  | StMouseUp => mkStylized (rotation s) false (lastX s)
  | StRandomView u => mkStylized (u * 360) false (lastX s)
  end.

Fixpoint run_st (s : stylized) (evs : list st_event) : stylized :=
  match evs with
  | [] => s
  | e :: evs' => run_st (st_step e s) evs'
  end.

(** [Math.random()] lies in [0, 1). *)
Definition random_ok (e : st_event) : Prop :=
  match e with
  | StRandomView u => 0 <= u /\ u < 1
  | _ => True
  end.

(** ** SimpleEarthViewer, lines 186-382 *)

Record sview : Type := mkSView {
  sv_loading : bool;
  sv_error : option string;
  sv_webgl : option bool;          (* webglSupported *)
  sv_cesium : bool;                (* window.Cesium defined *)
  sv_scripts : nat;                (* script tags appended to document.body *)
  sv_viewers : nat }.              (* Cesium viewers constructed *)

(** [cesiumContainerRef.current] is set only while the last render took
    the final branch (lines 361-382): not loading, no error, and WebGL not
    known to be missing.  Every message the component stores is non-empty,
    so [error] is truthy exactly when it is set. *)
Definition sv_container (s : sview) : bool :=
  negb (sv_loading s)
  && match sv_error s with Some _ => false | None => true end
  && match sv_webgl s with Some false => false | _ => true end.

Definition sv_fail (msg : string) (s : sview) : sview :=
  mkSView false (Some msg) (sv_webgl s) (sv_cesium s) (sv_scripts s) (sv_viewers s).

(** [initCesium], lines 207-260; [ok] says whether [new Cesium.Viewer]
    succeeds, [msg] is [e.message] otherwise.  The flight's [complete]
    callback is the [SvFlyComplete] event. *)
Definition initCesium_simple (ok : bool) (msg : string) (s : sview) : sview :=
  if negb (sv_container s) then s
  else if negb (sv_cesium s) then sv_fail "Cesium library not found" s
  else if ok then
    mkSView (sv_loading s) (sv_error s) (sv_webgl s) (sv_cesium s) (sv_scripts s)
      (S (sv_viewers s))
  else sv_fail (String.append "Cesium initialization failed: "
                 (if String.eqb msg EmptyString then "Unknown error" else msg)) s.

Inductive sv_event : Type :=
| SvEffect (webgl : bool) (ok : bool) (msg : string)
    (* the effect of lines 262-338, with checkWebGLSupport's answer *)
| SvScriptLoad (defines : bool) (ok : bool) (msg : string)  (* script.onload *)
| SvScriptError                                           (* script.onerror *)
| SvTimeout (captured_loading : bool)   (* the 5 s timer, with the loading its effect saw *)
| SvFlyComplete.                        (* flyTo's complete callback *)

Definition sv_step (e : sv_event) (s : sview) : sview :=
  match e with
  | SvEffect w ok msg =>
      let s := mkSView (sv_loading s) (sv_error s) (Some w) (sv_cesium s)
                 (sv_scripts s) (sv_viewers s) in
      if negb w then sv_fail "WebGL is not supported by your browser" s
      else if sv_cesium s then initCesium_simple ok msg s
      else mkSView (sv_loading s) (sv_error s) (sv_webgl s) (sv_cesium s)
             (S (sv_scripts s)) (sv_viewers s)
  | SvScriptLoad d ok msg =>
      initCesium_simple ok msg
        (mkSView (sv_loading s) (sv_error s) (sv_webgl s) (sv_cesium s || d)
           (sv_scripts s) (sv_viewers s))
  | SvScriptError => sv_fail "Failed to load Cesium library" s
  | SvTimeout l => if l then sv_fail "Cesium loading timed out" s else s
  | SvFlyComplete =>
      if Nat.ltb 0 (sv_viewers s)
      then mkSView false (sv_error s) (sv_webgl s) (sv_cesium s) (sv_scripts s) (sv_viewers s)
      else s
  end.

Fixpoint run_sv (s : sview) (evs : list sv_event) : sview :=
  match evs with
  | [] => s
  | e :: evs' => run_sv (sv_step e s) evs'
  end.

(** Mount: [loading] true, no error, WebGL not yet checked. *)
Definition sv_initial (cesium_present : bool) : sview :=
  mkSView true None None cesium_present 0 0.

(** The decision [if (!isWebGLSupported())] takes on a probe's answer; a
    probe that throws is taken as unsupported. *)
Definition probe_answer (m : M unit jsval) : bool :=
  match fst (m tt) with Ok v => truthy v | Exc _ => false end.

(** [CESIUM_READY] fulfilled, or a waitForCesium call answered [true],
    only with [window.Cesium] defined. *)
Definition fulfilled_sound (s : loader) : Prop :=
  (ready s = Fulfilled -> cesium s = true) /\ (In (Some true) (waiters s) -> cesium s = true).

(** SimpleEarthViewer: [loading] is cleared only together with an error,
    and no viewer exists. *)
Definition sv_inv (s : sview) : Prop :=
  (sv_loading s = true \/ sv_error s <> None) /\ sv_viewers s = 0%nat.

(** ** Concurrent initCesium calls of the second component, lines 1061-1088

    Each call that finds [window.Cesium] undefined appends its own
    ['/cesium/Cesium.js'] tag and awaits a promise settled by that tag's
    onload (resolve), its onerror (reject) or a 10 s timer armed for it
    (reject); a promise settles once.  The model keeps window.Cesium, the
    tags these calls appended, and where each call is.  Calls that fail the
    WebGL check (lines 1053-1059) never reach this code and are left out. *)
Definition cesium_script_src : string := "/cesium/Cesium.js".

Inductive load_phase : Type :=
| AwaitingTag (k : nat)  (* suspended on the promise of tag k, lines 1074-1080 *)
| PastLoading            (* went on to the wait loop of line 1091 *)
| LoadFailed.            (* the catch of lines 1083-1088: error set, returned *)

Record inits : Type := mkInits {
  i_cesium : bool;              (* typeof window.Cesium !== 'undefined' *)
  i_tags : list string;         (* script tags appended by initCesium calls *)
  i_calls : list load_phase }.  (* one entry per initCesium call, in call order *)

Inductive init_event : Type :=
| InitCall                              (* an initCesium call reaches line 1062 *)
| TagLoad (k : nat) (defines : bool)    (* onload of tag k; window.Cesium then defined? *)
| TagError (k : nat)                    (* onerror of tag k *)
| TagTimeout (k : nat).                 (* the 10 s timer armed for tag k *)

(** Settling the promise of tag [k] resumes the call suspended on it. *)
Definition resume (k : nat) (to : load_phase) (l : list load_phase) : list load_phase :=
  map (fun ph => match ph with
                 | AwaitingTag j => if Nat.eqb j k then to else ph
                 | _ => ph
                 end) l.

Definition init_step (e : init_event) (s : inits) : inits :=
  match e with
  | InitCall =>
      if i_cesium s then mkInits (i_cesium s) (i_tags s) (i_calls s ++ [PastLoading])
      else mkInits (i_cesium s) (i_tags s ++ [cesium_script_src])
             (i_calls s ++ [AwaitingTag (length (i_tags s))])
  | TagLoad k d =>
      match nth_error (i_tags s) k with
      | Some _ => mkInits (i_cesium s || d) (i_tags s) (resume k PastLoading (i_calls s))
      | None => s
      end
  | TagError k | TagTimeout k => mkInits (i_cesium s) (i_tags s) (resume k LoadFailed (i_calls s))
  end.

Fixpoint run_inits (s : inits) (evs : list init_event) : inits :=
  match evs with
  | [] => s
  | e :: evs' => run_inits (init_step e s) evs'
  end.

Definition inits_initial (cesium_present : bool) : inits := mkInits cesium_present [] [].

(** The tag whose promise an event settles. *)
Definition event_tag (e : init_event) : option nat :=
  match e with
  | InitCall => None
  | TagLoad k _ | TagError k | TagTimeout k => Some k
  end.

(** Fixtures for the examples below. *)
Definition be_ready : boot_env := mkBootEnv true true true true true true true (fun _ => false).
Definition be_no_ion : boot_env := mkBootEnv true true true true true false true (fun _ => false).

(** The library already loaded, no viewer yet. *)
Definition boot_loaded : boot := mkBoot true [] false None true [].

Definition E_ion : env :=
  mkEnv (fun pr => match pr with IonImagery _ => true | _ => false end) true true.

(** A browser whose canvas answers [null] for ["webgl"] and hands out an
    ["experimental-webgl"] context. *)
Definition pe_experimental : probe_env :=
  mkProbeEnv (Ok tt) true (fun k => if String.eqb k "webgl" then Ok JNull else Ok (JContext k)).

(** The stylized globe's rotation stays within one turn either way. *)
Definition st_bound (s : stylized) : Prop := (-360 < rotation s /\ rotation s < 360)%Q.

(** ** Observations used by the invariants below *)

(** What the weather-marker and teardown invariants look at: whether the
    viewer is destroyed, its entities, and the marker ref. *)
Definition vshape (p : page) : option (bool * list entity) * option entity :=
  (option_map (fun v => (v_destroyed v, v_entities v)) (viewerRef p), weatherEntityRef p).

Definition vdead (p : page) : option bool := option_map v_destroyed (viewerRef p).

(** At most one entity, and then it is the one the marker ref holds. *)
Definition marker_inv (p : page) : Prop :=
  match viewerRef p with
  | None => True
  | Some v => v_entities v = [] \/ exists e, v_entities v = [e] /\ weatherEntityRef p = Some e
  end.

(** [viewerRef.current] never holds a destroyed viewer. *)
Definition no_dead (p : page) : Prop :=
  match viewerRef p with
  | None => True
  | Some v => v_destroyed v = false
  end.

(** The default location of the mount effect (India). *)
Definition india_lat : Q := 205937 # 10000.
Definition india_lon : Q := 789629 # 10000.

(** Every suspended initCesium call waits on a tag that exists, and no
    two calls wait on the same tag. *)
Definition inits_inv (s : inits) : Prop :=
  (forall i k, nth_error (i_calls s) i = Some (AwaitingTag k) -> (k < length (i_tags s))%nat) /\
  (forall i j k, nth_error (i_calls s) i = Some (AwaitingTag k) ->
     nth_error (i_calls s) j = Some (AwaitingTag k) -> i = j).

(** Boot with no WebGL but everything else available. *)
Definition be_no_webgl : boot_env :=
  mkBootEnv false true true true true true true (fun _ => true).

(** * Proofs *)

Open Scope nat_scope.

Arguments remove_above_base : simpl never.
Arguments remove_from_front : simpl never.

(** ** The removal loops *)

Lemma remove_first_self (x : layer) (l : list layer) : remove_first x (x :: l) = l.
Proof. simpl. rewrite Nat.eqb_refl. reflexivity. Qed.

Lemma remove_from_front_empty :
  forall n l, length l <= n -> remove_from_front n l = [].
Proof.
  induction n as [|n IH]; intros [|y l] Hlen; simpl in Hlen; try lia;
    unfold remove_from_front; fold remove_from_front; try reflexivity.
  simpl. rewrite Nat.eqb_refl. apply IH. lia.
Qed.

Lemma remove_above_base_single :
  forall n x l, NoDup (map lid (x :: l)) -> length l <= n ->
    remove_above_base n (x :: l) = [x].
Proof.
  induction n as [|n IH]; intros x [|y l] Hnd Hlen; simpl in Hlen; try lia;
    unfold remove_above_base; fold remove_above_base; try reflexivity.
  simpl.
  assert (Hxy : lid x <> lid y).
  { intro E. inversion Hnd as [|a b Hnotin Hnd']; subst.
    apply Hnotin. simpl. left. symmetry. exact E. }
  apply Nat.eqb_neq in Hxy. rewrite Hxy.
  rewrite Nat.eqb_refl. apply IH; [|lia].
  inversion Hnd as [|a b Hnotin Hnd']; subst.
  inversion Hnd' as [|c d Hnotin' Hnd'']; subst.
  constructor; [|exact Hnd''].
  intro Hin. apply Hnotin. simpl. right. exact Hin.
Qed.

(** ** Frame lemmas: what a computation leaves untouched *)

Section Frame.
Context {B : Type} (f : page -> B).

Definition keeps {A} (m : M page A) : Prop := forall p, f (snd (m p)) = f p.

Lemma keeps_ret {A} (a : A) : keeps (ret a).
Proof. intro p. reflexivity. Qed.

Lemma keeps_throw {A} (e : exn) : keeps (@throw page A e).
Proof. intro p. reflexivity. Qed.

Lemma keeps_gets {A} (g : page -> A) : keeps (gets g).
Proof. intro p. reflexivity. Qed.

Lemma keeps_modify (g : page -> page) : (forall p, f (g p) = f p) -> keeps (modify g).
Proof. intros H p. apply H. Qed.

Lemma keeps_bind {A C} (m : M page A) (k : A -> M page C) :
  keeps m -> (forall a, keeps (k a)) -> keeps (bind m k).
Proof.
  intros Hm Hk p. unfold bind.
  specialize (Hm p). destruct (m p) as [[a|e] p'] eqn:Heq; simpl in *.
  - rewrite Hk. exact Hm.
  - exact Hm.
Qed.

Lemma keeps_try_catch {A} (m : M page A) (h : exn -> M page A) :
  keeps m -> (forall e, keeps (h e)) -> keeps (try_catch m h).
Proof.
  intros Hm Hh p. unfold try_catch.
  specialize (Hm p). destruct (m p) as [[a|e] p'] eqn:Heq; simpl in *.
  - exact Hm.
  - rewrite Hh. exact Hm.
Qed.

Lemma keeps_try_finally {A} (m : M page A) (g : M page unit) :
  keeps m -> keeps g -> keeps (try_finally m g).
Proof.
  intros Hm Hg p. unfold try_finally.
  specialize (Hm p). destruct (m p) as [r p'] eqn:Heq; simpl in *.
  specialize (Hg p'). destruct (g p') as [[u|e] p''] eqn:Heq'; simpl in *; congruence.
Qed.

Lemma keeps_the_viewer : keeps the_viewer.
Proof. intro p. unfold the_viewer. destruct (viewerRef p) as [[[] ]|]; reflexivity. Qed.
End Frame.

Create HintDb frame.
#[export] Hint Resolve keeps_ret keeps_throw keeps_gets keeps_the_viewer : frame.

(** A page step that leaves the observed part alone, by cases on the viewer. *)
Ltac page_cases :=
  let q := fresh "q" in
  intro q; destruct q as [[?|] ? ? ? ? ? ? ? ? ?]; reflexivity.

(** Split a computation into its steps, case on the tests in between. *)
Ltac frame_step :=
  match goal with
  | |- keeps _ (bind _ _) => apply keeps_bind; [|intro]
  | |- keeps _ (try_catch _ _) => apply keeps_try_catch; [|intro]
  | |- keeps _ (try_finally _ _) => apply keeps_try_finally
  | |- keeps _ (modify _) => apply keeps_modify; page_cases
  | |- keeps _ (if ?b then _ else _) => destruct b
  | |- keeps _ (match ?x with _ => _ end) => destruct x
  end.

Ltac frame := repeat (frame_step || eauto with frame).

(** The steps that never write [activeLayer]. *)
Lemma keeps_add_provider_active E pr : keeps activeLayer (add_provider E pr).
Proof.
  unfold add_provider. frame. intro p. reflexivity.
Qed.

Lemma keeps_set_alpha_active x a : keeps activeLayer (set_alpha x a).
Proof. unfold set_alpha. frame. Qed.

Lemma keeps_clear_v1_active : keeps activeLayer clear_layers_v1.
Proof. unfold clear_layers_v1, modify_layers. frame. Qed.

Lemma keeps_clear_front_active : keeps activeLayer clear_layers_front.
Proof. unfold clear_layers_front, modify_layers. frame. Qed.

#[export] Hint Resolve keeps_add_provider_active keeps_set_alpha_active
  keeps_clear_v1_active keeps_clear_front_active : frame.

Lemma keeps_add_ion_active E n : keeps activeLayer (add_ion E n).
Proof. unfold add_ion. frame. Qed.

#[export] Hint Resolve keeps_add_ion_active : frame.

Lemma keeps_switch_body_v1_active E n : keeps activeLayer (switch_body_v1 E n).
Proof.
  unfold switch_body_v1, add_ion, base_and_overlay. frame.
Qed.

Lemma keeps_overlay_v2_active E n : keeps activeLayer (overlay_v2 E n).
Proof.
  unfold overlay_v2, weather_overlay_v2, set_material. frame.
Qed.

Lemma keeps_request_render_active : keeps activeLayer request_render.
Proof. unfold request_render. frame. Qed.

#[export] Hint Resolve keeps_switch_body_v1_active keeps_overlay_v2_active
  keeps_request_render_active : frame.

Lemma bind_gets {S A B} (g : S -> A) (k : A -> M S B) (s : S) :
  (x <- gets g ;; k x) s = k (g s) s.
Proof. reflexivity. Qed.

Lemma try_catch_gets {S A B} (g : S -> A) (k : A -> M S B) h (s : S) :
  try_catch (x <- gets g ;; k x) h s = try_catch (k (g s)) h s.
Proof. reflexivity. Qed.

Lemma set_active_then (m : M page unit) name p :
  keeps activeLayer m -> activeLayer (snd ((modify (set_activeLayer name) ;; m) p)) = name.
Proof.
  intros H. change (activeLayer (snd (m (set_activeLayer name p))) = name).
  rewrite H. reflexivity.
Qed.

Lemma try_after_set_active (m : M page unit) h name p :
  keeps activeLayer m -> (forall e, keeps activeLayer (h e)) ->
  activeLayer (snd (try_catch (modify (set_activeLayer name) ;; m) h p)) = name.
Proof.
  intros Hm Hh. unfold try_catch.
  change (activeLayer (snd (match m (set_activeLayer name p) with
                            | (Exc e, s') => h e s' | r => r end)) = name).
  specialize (Hm (set_activeLayer name p)).
  destruct (m (set_activeLayer name p)) as [[u|e] p'] eqn:Heq; simpl in *.
  - exact Hm.
  - rewrite Hh. exact Hm.
Qed.

(** Case analysis on every test left in the goal or in a hypothesis. *)
Ltac case_tests :=
  repeat match goal with
  | |- context [if ?b then _ else _] => destruct b eqn:?
  | H : context [if ?b then _ else _] |- _ => destruct b eqn:?
  end.

(** ** C3 *)

(** C3 (corrected).  All three layer switches write the requested
    category into [activeLayer] right after the viewer check, before any
    layer is removed or added; none of the later steps writes it again,
    so the category is recorded whatever the removal and the provider
    constructors do, also when the switch ends in an exception. *)
Theorem switch_sets_category_before_layers :
  forall E name p, live p = true ->
    activeLayer (snd (switchImageryLayer_v1 E name p)) = name /\
    activeLayer (snd (switchImageryLayer_v2 E name p)) = name /\
    activeLayer (snd (switchLayer_v3 E name p)) = name.
Proof.
  intros E name p Hl. split; [|split].
  - unfold switchImageryLayer_v1. rewrite bind_gets, Hl.
    apply set_active_then. frame.
  - unfold switchImageryLayer_v2. rewrite bind_gets, Hl.
    apply set_active_then. frame.
  - unfold switchLayer_v3. rewrite try_catch_gets.
    unfold live in Hl. destruct (viewerRef p) as [v|]; [|discriminate].
    cbv beta iota. apply try_after_set_active.
    + unfold base_and_overlay. frame.
    + intro e. frame.
Qed.

Lemma switch_sets_category_before_layers_witness :
  live (page_with [L0] 1) = true /\
  activeLayer (snd (switchImageryLayer_v1 E_fail "Wind" (page_with [L0] 1))) = "Wind" /\
  activeLayer (snd (switchImageryLayer_v2 E_fail "Wind" (page_with [L0] 1))) = "Wind" /\
  activeLayer (snd (switchLayer_v3 E_fail "Wind" (page_with [L0] 1))) = "Wind".
Proof.
  assert (H : live (page_with [L0] 1) = true) by reflexivity.
  split; [exact H|]. exact (switch_sets_category_before_layers E_fail "Wind" _ H).
Defined.

(** C3: when both base providers fail, part_007's switch throws and leaves
    the globe without imagery, yet "Temperature" is recorded. *)
Lemma failed_switch_records_category :
  let r := switchImageryLayer_v2 E_fail "Temperature" (page_with [L0] 1) in
  fst r = Exc ProviderError /\ activeLayer (snd r) = "Temperature" /\
  layers_of (snd r) = Some [].
Proof. vm_compute. split; [reflexivity | split; reflexivity]. Qed.

(** ** C4 *)

(** C4 (corrected).  The removal phase of part_007's switchImageryLayer
    and of EarthViewerPage's switchLayer (line 930) removes element 0 until
    the collection is empty; the removal phase of EarthViewerPage's
    switchImageryLayer (line 152) removes element 1 while more than one
    layer is left, so it keeps the layer at index 0. *)
Theorem removal_phase_spec :
  forall p v, viewerRef p = Some v -> v_destroyed v = false ->
    clear_layers_front p = (Ok tt, map_viewer (with_layers []) p) /\
    (forall x xs, v_layers v = x :: xs -> NoDup (map lid (x :: xs)) ->
       clear_layers_v1 p = (Ok tt, map_viewer (with_layers [x]) p)).
Proof.
  intros p v Hv Hd.
  unfold clear_layers_front, clear_layers_v1, modify_layers, bind, the_viewer, modify.
  rewrite Hv, Hd. cbn. split.
  - rewrite remove_from_front_empty by lia. reflexivity.
  - intros x xs Hl Hnd. rewrite Hl. rewrite remove_above_base_single; auto; simpl; lia.
Qed.

Lemma removal_phase_spec_witness :
  viewerRef (page_with [L0; L1] 2) = Some (viewer_with [L0; L1]) /\
  v_destroyed (viewer_with [L0; L1]) = false /\
  NoDup (map lid [L0; L1]) /\
  clear_layers_v1 (page_with [L0; L1] 2)
    = (Ok tt, map_viewer (with_layers [L0]) (page_with [L0; L1] 2)).
Proof.
  assert (Hnd : NoDup (map lid [L0; L1])).
  { simpl. constructor; [simpl; intuition discriminate | constructor; [simpl; tauto | constructor]]. }
  split; [reflexivity | split; [reflexivity | split; [exact Hnd |]]].
  exact (proj2 (removal_phase_spec (page_with [L0; L1] 2) (viewer_with [L0; L1])
                  eq_refl eq_refl) L0 [L1] eq_refl Hnd).
Defined.

(** C4: the first switchImageryLayer leaves layer 0 in place. *)
Lemma removal_keeps_layer_zero :
  layers_of (snd (clear_layers_v1 (page_with [L0; L1] 2))) = Some [L0] /\
  layers_of (snd (clear_layers_v1 (page_with [L0; L1] 2))) <> Some [].
Proof. split; [reflexivity | vm_compute; discriminate]. Qed.

(** ** C1 *)

(** C1 (corrected).  part_007's switchImageryLayer, on a live viewer,
    when it returns normally, leaves the NASA GIBS layer (or the
    NaturalEarthII fallback when the GIBS constructor throws) at index 0
    and at most one overlay after it.  EarthViewerPage's
    switchImageryLayer (lines 152-358) keeps the layer that was at index 0
    and appends the category's layers after it: at most 3 layers. *)
Theorem switch_layer_shape :
  (forall E name p v, viewerRef p = Some v -> v_destroyed v = false ->
     fst (switchImageryLayer_v2 E name p) = Ok tt ->
     exists x rest, layers_of (snd (switchImageryLayer_v2 E name p)) = Some (x :: rest) /\
       lprov x = (if ctor_ok E GibsTrueColor then GibsTrueColor else NaturalEarthII None) /\
       length rest <= 1) /\
  (forall E name p v x xs, viewerRef p = Some v -> v_destroyed v = false ->
     v_layers v = x :: xs -> NoDup (map lid (x :: xs)) -> lid x < next_id p ->
     exists rest, layers_of (snd (switchImageryLayer_v1 E name p)) = Some (x :: rest) /\
       length rest <= 2).
Proof.
  split.
  - intros E name [vr al er wr wd wl we sl rq nid] v Hv Hd.
    simpl in Hv; subst vr. destruct v as [d ls es h fl mat rn]; simpl in Hd; subst d.
    unfold switchImageryLayer_v2, overlay_v2, weather_overlay_v2, set_material,
      request_render, clear_layers_front, modify_layers, add_provider, set_alpha.
    cbn. rewrite remove_from_front_empty by lia.
    destruct (decode name); cbn; case_tests; cbn; case_tests; intro H; try discriminate;
      (eexists _, _; split; [reflexivity|]; split; [reflexivity|cbn; lia]).
  - intros E name [vr al er wr wd wl we sl rq nid] v x xs Hv Hd Hl Hnd Hfresh.
    simpl in Hv, Hfresh; subst vr. destruct v as [d ls es h fl mat rn]; simpl in Hd, Hl; subst d ls.
    assert (Hx0 : (lid x =? nid) = false) by (apply Nat.eqb_neq; lia).
    assert (Hx1 : (lid x =? S nid) = false) by (apply Nat.eqb_neq; lia).
    assert (Hx2 : (lid x =? S (S nid)) = false) by (apply Nat.eqb_neq; lia).
    unfold switchImageryLayer_v1, switch_body_v1, add_ion, base_and_overlay,
      clear_layers_v1, modify_layers, add_provider, set_alpha.
    cbn. rewrite remove_above_base_single by (auto; simpl; lia).
    destruct (decode name); cbn; case_tests; cbn; rewrite ?Hx0, ?Hx1, ?Hx2; case_tests;
      (eexists _; split; [reflexivity|cbn; lia]).
Qed.

Lemma switch_layer_shape_witness :
  (viewerRef (page_with [L0] 1) = Some (viewer_with [L0]) /\
   v_destroyed (viewer_with [L0]) = false /\
   fst (switchImageryLayer_v2 E_ok "Temperature" (page_with [L0] 1)) = Ok tt /\
   exists x rest,
     layers_of (snd (switchImageryLayer_v2 E_ok "Temperature" (page_with [L0] 1)))
       = Some (x :: rest) /\
     lprov x = (if ctor_ok E_ok GibsTrueColor then GibsTrueColor else NaturalEarthII None) /\
     length rest <= 1) /\
  (NoDup (map lid [L0]) /\ lid L0 < next_id (page_with [L0] 1) /\
   exists rest,
     layers_of (snd (switchImageryLayer_v1 E_ok "Temperature" (page_with [L0] 1)))
       = Some (L0 :: rest) /\ length rest <= 2).
Proof.
  assert (Hok : fst (switchImageryLayer_v2 E_ok "Temperature" (page_with [L0] 1)) = Ok tt)
    by reflexivity.
  assert (Hnd : NoDup (map lid [L0])) by (simpl; constructor; [simpl; tauto | constructor]).
  assert (Hfr : lid L0 < next_id (page_with [L0] 1)) by (simpl; lia).
  split.
  - split; [reflexivity | split; [reflexivity | split; [exact Hok |]]].
    exact (proj1 switch_layer_shape E_ok "Temperature" (page_with [L0] 1) (viewer_with [L0])
             eq_refl eq_refl Hok).
  - split; [exact Hnd | split; [exact Hfr |]].
    exact (proj2 switch_layer_shape E_ok "Temperature" (page_with [L0] 1) (viewer_with [L0])
             L0 [] eq_refl eq_refl eq_refl Hnd Hfr).
Defined.

(** C1: switching EarthViewerPage's first component to "Temperature"
    from a globe showing its initial NaturalEarthII layer: no exception,
    three layers, and layer 0 is the old NaturalEarthII layer rather than
    the temperature base layer (Ion asset 2). *)
Lemma switch_v1_temperature_three_layers :
  let r := switchImageryLayer_v1 E_ok "Temperature" (page_with [L0] 1) in
  fst r = Ok tt /\
  layers_of (snd r)
    = Some [L0; mkLayer 1 (IonImagery 2) 1; mkLayer 2 (GridImagery 6 RED) (1 # 2)] /\
  lprov L0 <> IonImagery 2.
Proof. split; [reflexivity | split; [reflexivity | discriminate]]. Qed.

(** ** Steps that leave the viewer's entities and the marker ref alone *)

Lemma keeps_add_provider_vshape E pr : keeps vshape (add_provider E pr).
Proof. unfold add_provider. frame. page_cases. Qed.

Lemma keeps_set_alpha_vshape x a : keeps vshape (set_alpha x a).
Proof. unfold set_alpha. frame. Qed.

Lemma keeps_clear_v1_vshape : keeps vshape clear_layers_v1.
Proof. unfold clear_layers_v1, modify_layers. frame. Qed.

Lemma keeps_clear_front_vshape : keeps vshape clear_layers_front.
Proof. unfold clear_layers_front, modify_layers. frame. Qed.

#[export] Hint Resolve keeps_add_provider_vshape keeps_set_alpha_vshape
  keeps_clear_v1_vshape keeps_clear_front_vshape : frame.

Lemma keeps_switch_v1_vshape E n : keeps vshape (switchImageryLayer_v1 E n).
Proof.
  unfold switchImageryLayer_v1, switch_body_v1, add_ion, base_and_overlay. frame.
Qed.

Lemma keeps_switch_v2_vshape E n : keeps vshape (switchImageryLayer_v2 E n).
Proof.
  unfold switchImageryLayer_v2, overlay_v2, weather_overlay_v2, set_material,
    request_render. frame.
Qed.

Lemma keeps_switch_v3_vshape E n : keeps vshape (switchLayer_v3 E n).
Proof. unfold switchLayer_v3, base_and_overlay. frame. Qed.

Lemma keeps_zoom_in_vshape zi : keeps vshape (handleZoomIn zi).
Proof. unfold handleZoomIn. frame. Qed.

Lemma keeps_zoom_out_vshape zo : keeps vshape (handleZoomOut zo).
Proof. unfold handleZoomOut. frame. Qed.

Lemma keeps_fetch_start_vshape snap lat lon : keeps vshape (fetchWeatherData_start snap lat lon).
Proof. unfold fetchWeatherData_start. frame. Qed.

Lemma keeps_fetch_fail_vshape lat lon n : keeps vshape (fetchWeatherData_finish lat lon n Failure).
Proof. unfold fetchWeatherData_finish. frame. Qed.

Lemma keeps_marker_vdead lat lon w : keeps vdead (addWeatherMarker lat lon w).
Proof. unfold addWeatherMarker, ent_add. frame; page_cases. Qed.

(** ** C2 *)

Lemma nth_error_resume k to l i :
  nth_error (resume k to l) i
  = option_map (fun ph => match ph with
                          | AwaitingTag j => if Nat.eqb j k then to else ph
                          | _ => ph
                          end) (nth_error l i).
Proof. unfold resume. apply nth_error_map. Qed.

(** A call still suspended after a step was suspended on the same tag
    before it. *)
Lemma awaiting_after_step e s i k :
  nth_error (i_calls (init_step e s)) i = Some (AwaitingTag k) ->
  nth_error (i_calls s) i = Some (AwaitingTag k) \/
  (e = InitCall /\ i_cesium s = false /\ i = length (i_calls s) /\ k = length (i_tags s)).
Proof.
  intros H. destruct e as [| k' d | k' | k']; cbn [init_step] in H.
  - destruct (Nat.lt_ge_cases i (length (i_calls s))) as [Hi | Hi].
    + left. destruct (i_cesium s); cbn in H; rewrite nth_error_app1 in H by exact Hi; exact H.
    + destruct (i_cesium s) eqn:Ec; cbn in H; rewrite nth_error_app2 in H by exact Hi;
        destruct (i - length (i_calls s)) as [|n] eqn:En; cbn in H;
        try (destruct n; discriminate); try discriminate.
      injection H as <-. right. repeat split; lia.
  - left. destruct (nth_error (i_tags s) k'); [|exact H]. cbn in H.
    rewrite nth_error_resume in H.
    destruct (nth_error (i_calls s) i) as [[j| |]|]; cbn in H; try discriminate.
    destruct (Nat.eqb j k'); congruence.
  - left. cbn in H. rewrite nth_error_resume in H.
    destruct (nth_error (i_calls s) i) as [[j| |]|]; cbn in H; try discriminate.
    destruct (Nat.eqb j k'); congruence.
  - left. cbn in H. rewrite nth_error_resume in H.
    destruct (nth_error (i_calls s) i) as [[j| |]|]; cbn in H; try discriminate.
    destruct (Nat.eqb j k'); congruence.
Qed.
Lemma init_step_tags_grow e s : length (i_tags s) <= length (i_tags (init_step e s)).
Proof.
  destruct e as [| k d | k | k]; cbn [init_step].
  - destruct (i_cesium s); cbn; rewrite ?length_app; lia.
  - destruct (nth_error (i_tags s) k); cbn; lia.
  - cbn; lia.
  - cbn; lia.
Qed.

Lemma inits_inv_step e s : inits_inv s -> inits_inv (init_step e s).
Proof.
  intros [Hlt Huniq]. split.
  - intros i k H. apply awaiting_after_step in H as [H | (-> & Ec & _ & ->)].
    + pose proof (init_step_tags_grow e s). specialize (Hlt i k H). lia.
    + cbn. rewrite Ec. cbn. rewrite length_app. cbn. lia.
  - intros i j k Hi Hj.
    apply awaiting_after_step in Hi as [Hi | (-> & Ec & -> & ->)];
      apply awaiting_after_step in Hj as [Hj | (He & _ & -> & Hk)].
    + exact (Huniq i j k Hi Hj).
    + specialize (Hlt i k Hi). lia.
    + specialize (Hlt j _ Hj). lia.
    + reflexivity.
Qed.

Lemma inits_inv_run evs : forall s, inits_inv s -> inits_inv (run_inits s evs).
Proof.
  induction evs as [|e evs IH]; intros s H; [exact H|].
  cbn [run_inits]. apply IH, inits_inv_step, H.
Qed.

(** C2 (corrected).  Neither cited piece of code injects one tag for all
    callers.  The loader script's window 'load' listener appends the
    primary tag again while [CESIUM_LOADED] is false, and a failing
    primary tag makes it append the fallback tag.  Every initCesium call
    of the second component that finds window.Cesium undefined appends its
    own '/cesium/Cesium.js' tag and waits on that tag only: an event of
    another tag leaves it suspended, and no two calls ever wait on the
    same tag. *)
Theorem concurrent_inits_own_tags :
  (forall s, loaded s = false -> tags (loader_step WindowLoad s) = tags s ++ [primary_src]) /\
  (forall s i, nth_error (tags s) i = Some primary_src ->
     tags (loader_step (ScriptFail i) s) = tags s ++ [fallback_src]) /\
  (forall s, i_cesium s = false ->
     i_tags (init_step InitCall s) = i_tags s ++ [cesium_script_src] /\
     i_calls (init_step InitCall s) = i_calls s ++ [AwaitingTag (length (i_tags s))]) /\
  (forall s e i k, nth_error (i_calls s) i = Some (AwaitingTag k) -> event_tag e <> Some k ->
     nth_error (i_calls (init_step e s)) i = Some (AwaitingTag k)) /\
  (forall c evs i j k,
     nth_error (i_calls (run_inits (inits_initial c) evs)) i = Some (AwaitingTag k) ->
     nth_error (i_calls (run_inits (inits_initial c) evs)) j = Some (AwaitingTag k) -> i = j).
Proof.
  split; [|split; [|split; [|split]]].
  - intros s H. cbn. rewrite H. reflexivity.
  - intros s i H. cbn. rewrite H. unfold on_script_error.
    rewrite String.eqb_refl. reflexivity.
  - intros s H. cbn. rewrite H. split; reflexivity.
  - intros s e i k H Hne. destruct e as [| k' d | k' | k']; cbn [init_step event_tag] in *.
    + assert (Hi : i < length (i_calls s)) by (apply nth_error_Some; rewrite H; discriminate).
      destruct (i_cesium s); cbn; rewrite nth_error_app1 by exact Hi; exact H.
    + destruct (nth_error (i_tags s) k'); [|exact H]. cbn.
      rewrite nth_error_resume, H. cbn.
      destruct (Nat.eqb_spec k k'); [congruence | reflexivity].
    + cbn. rewrite nth_error_resume, H. cbn.
      destruct (Nat.eqb_spec k k'); [congruence | reflexivity].
    + cbn. rewrite nth_error_resume, H. cbn.
      destruct (Nat.eqb_spec k k'); [congruence | reflexivity].
  - intros c evs. apply inits_inv_run.
    split; intros i; [intros k H | intros j k H]; destruct i; discriminate.
Qed.

Lemma concurrent_inits_own_tags_witness :
  tags (loader_step WindowLoad (loader_init false)) = [primary_src; primary_src] /\
  tags (loader_step (ScriptFail 0) (loader_init false)) = [primary_src; fallback_src] /\
  i_tags (init_step InitCall (inits_initial false)) = [cesium_script_src] /\
  nth_error (i_calls (init_step (TagLoad 1 true)
     (run_inits (inits_initial false) [InitCall; InitCall]))) 0 = Some (AwaitingTag 0) /\
  nth_error (i_calls (run_inits (inits_initial false) [InitCall; InitCall])) 1
    = Some (AwaitingTag 1) /\ 1 = 1.
Proof.
  destruct concurrent_inits_own_tags as (H1 & H2 & H3 & H4 & H5).
  split; [exact (H1 (loader_init false) eq_refl) |].
  split; [exact (H2 (loader_init false) 0 eq_refl) |].
  split; [exact (proj1 (H3 (inits_initial false) eq_refl)) |].
  split.
  - apply H4; [reflexivity | discriminate].
  - split; [reflexivity | exact (H5 false [InitCall; InitCall] 1 1 1 eq_refl eq_refl)].
Defined.

(** C2: two initCesium calls start while window.Cesium is undefined; the
    first tag loads and defines Cesium, the second tag's 10 s timer fires
    before its own onload.  Two identical tags are in the document, the
    first call goes on while the second fails.  The loader script, after
    both of its tags fail and the window 'load' listener runs, has appended
    three tags, the primary one twice. *)
Lemma two_inits_split_outcome :
  let s := run_inits (inits_initial false) [InitCall; InitCall; TagLoad 0 true; TagTimeout 1] in
  i_tags s = [cesium_script_src; cesium_script_src] /\
  i_calls s = [PastLoading; LoadFailed] /\ i_cesium s = true /\
  tags (run_loader (loader_init false) [ScriptFail 0; ScriptFail 1; WindowLoad])
    = [primary_src; fallback_src; primary_src].
Proof. repeat split; reflexivity. Qed.

(** ** C5 *)

(** C5 (corrected).  With the WebGL probe answering false, the second
    EarthViewerPage component probes first and stops there: no script tag,
    no viewer, only [AProbe] logged, the error set (so the fallback
    visualization renders) and the spinner off.  part_007's initCesium
    constructs no viewer and appends no tag either, but it waits for the
    library before probing. *)
Theorem no_webgl_no_viewer :
  forall be b, webgl be = false ->
    (let r := initCesium_v3 be b in
     fst r = Ok tt /\ b_tags (snd r) = b_tags b /\ b_viewer (snd r) = b_viewer b /\
     b_log (snd r) = b_log b ++ [AProbe] /\ renders_fallback_v3 (snd r) = true /\
     b_loading (snd r) = false) /\
    (let r := initCesium_v2 be b in
     fst r = Ok tt /\ b_tags (snd r) = b_tags b /\ b_viewer (snd r) = b_viewer b /\
     b_log (snd r) = b_log b ++ AWaitLibrary :: (if library_ready be then [AProbe] else []) /\
     b_error (snd r) <> None /\ b_loading (snd r) = false).
Proof.
  intros [[] sl sd [] co io vo cb] [c t v e l lg] H; try discriminate;
    cbn; repeat split; try reflexivity; try discriminate; rewrite <- app_assoc; reflexivity.
Qed.

Lemma no_webgl_no_viewer_witness :
  webgl be_no_webgl = false /\
  (let r := initCesium_v3 be_no_webgl boot_initial in
   fst r = Ok tt /\ b_tags (snd r) = b_tags boot_initial /\
   b_viewer (snd r) = b_viewer boot_initial /\
   b_log (snd r) = b_log boot_initial ++ [AProbe] /\ renders_fallback_v3 (snd r) = true /\
   b_loading (snd r) = false) /\
  (let r := initCesium_v2 be_no_webgl boot_initial in
   fst r = Ok tt /\ b_tags (snd r) = b_tags boot_initial /\
   b_viewer (snd r) = b_viewer boot_initial /\
   b_log (snd r) = b_log boot_initial ++ AWaitLibrary ::
                     (if library_ready be_no_webgl then [AProbe] else []) /\
   b_error (snd r) <> None /\ b_loading (snd r) = false).
Proof.
  split; [reflexivity |]. apply (no_webgl_no_viewer be_no_webgl boot_initial). reflexivity.
Defined.

(** C5: part_007's initCesium with no WebGL waits for the library before
    it probes, and the loader script of part_000 has already appended its
    script tag when it ran, with no probe at all. *)
Lemma probe_after_library_wait :
  b_log (snd (initCesium_v2 be_no_webgl boot_initial)) = [AWaitLibrary; AProbe] /\
  tags (loader_init false) = [primary_src].
Proof. split; reflexivity. Qed.

(** ** C6 *)

Lemma marker_inv_vshape p q : vshape q = vshape p -> marker_inv p -> marker_inv q.
Proof.
  destruct p as [[v|] ? ? r ? ? ? ? ? ?], q as [[w|] ? ? r' ? ? ? ? ? ?];
    unfold vshape, marker_inv; cbn; intros H; try discriminate; auto.
  injection H as Hd He Hr. rewrite He, Hr. auto.
Qed.

Lemma marker_inv_addWeatherMarker lat lon w p :
  marker_inv p -> marker_inv (snd (addWeatherMarker lat lon w p)).
Proof.
  destruct p as [[v|] al er r wd wl we sl rq nid]; [|unfold marker_inv; cbn; auto].
  destruct v as [[] ls ents h fl mat rn]; [unfold marker_inv; cbn; auto|].
  unfold marker_inv, addWeatherMarker, ent_add, bind, the_viewer, modify, gets, ret;
    cbn -[getWeatherIconUrl].
  intros [-> | (e & -> & ->)]; cbn -[getWeatherIconUrl].
  - destruct r as [e|]; cbn -[getWeatherIconUrl]; right; eexists; split; reflexivity.
  - rewrite Nat.eqb_refl. cbn -[getWeatherIconUrl]. right; eexists; split; reflexivity.
Qed.

Lemma marker_inv_mount p : marker_inv (snd (mount_viewer p)).
Proof.
  destruct p as [[[[] ] |] ? ? ? ? ? ? ? ? ?]; unfold marker_inv; cbn; left; reflexivity.
Qed.

Lemma marker_inv_cleanup p : marker_inv p -> marker_inv (snd (cleanup p)).
Proof.
  destruct p as [[[[] ] |] ? ? ? ? ? ? ? ? ?]; unfold marker_inv; cbn; auto.
Qed.

Lemma marker_inv_fetch_success lat lon n w p :
  marker_inv p -> marker_inv (snd (fetchWeatherData_finish lat lon n (Success w) p)).
Proof.
  intros Hp. unfold fetchWeatherData_finish, try_finally, try_catch.
  cbn -[addWeatherMarker live].
  set (p2 := set_selectedLocation _ (set_weatherData _ p)).
  assert (H2 : marker_inv p2)
    by (apply (marker_inv_vshape p); [destruct p; reflexivity | exact Hp]).
  destruct (live p2).
  - pose proof (marker_inv_addWeatherMarker lat lon w p2 H2) as H3.
    destruct (addWeatherMarker lat lon w p2) as [[[]|e] p3]; cbn in *;
      (apply (marker_inv_vshape p3); [destruct p3; reflexivity | exact H3]).
  - cbn. apply (marker_inv_vshape p2); [destruct p2; reflexivity | exact H2].
Qed.

Lemma marker_inv_step ev p : marker_inv p -> marker_inv (snd (step_event ev p)).
Proof.
  intros Hp. destruct ev as [|o|snap lat lon|lat lon n r]; cbn [step_event].
  - apply marker_inv_mount.
  - destruct o; cbn [run_op].
    + apply (marker_inv_vshape p); [apply keeps_zoom_in_vshape | exact Hp].
    + apply (marker_inv_vshape p); [apply keeps_zoom_out_vshape | exact Hp].
    + apply (marker_inv_vshape p); [apply keeps_switch_v1_vshape | exact Hp].
    + apply (marker_inv_vshape p); [apply keeps_switch_v2_vshape | exact Hp].
    + apply (marker_inv_vshape p); [apply keeps_switch_v3_vshape | exact Hp].
    + apply marker_inv_addWeatherMarker, Hp.
    + apply marker_inv_cleanup, Hp.
  - apply (marker_inv_vshape p); [|exact Hp].
    apply keeps_bind; [apply keeps_fetch_start_vshape | intros; apply keeps_ret].
  - destruct r as [w|].
    + apply marker_inv_fetch_success, Hp.
    + apply (marker_inv_vshape p); [apply keeps_fetch_fail_vshape | exact Hp].
Qed.

Lemma marker_inv_run evs : forall p, marker_inv p -> marker_inv (run_events p evs).
Proof.
  induction evs as [|ev evs IH]; intros p Hp; [exact Hp|].
  cbn [run_events]. apply IH, marker_inv_step, Hp.
Qed.

Lemma marker_inv_count p : marker_inv p -> marker_count p <= 1.
Proof.
  unfold marker_inv, marker_count. destruct (viewerRef p) as [v|]; [|lia].
  intros [-> | (e & -> & _)]; cbn; lia.
Qed.

(** C6.  Along any run of the page (viewer mounts, zooms, layer switches,
    weather markers for any coordinates, fetches started and finished in
    any order, teardowns) the viewer holds at most one entity: each
    marker removes the one the ref holds before adding its own. *)
Theorem weather_marker_at_most_one :
  forall evs, marker_count (run_events page_initial evs) <= 1.
Proof.
  intros evs. apply marker_inv_count, marker_inv_run. exact I.
Qed.

(** ** C7 *)

(** C7.  When the weather request fails, fetchWeatherData ends normally,
    sets [weatherError] to the failure message, clears [weatherLoading],
    and leaves the viewer (its entities included), the marker ref, the
    weather data, the selected location, the active layer and the page
    error as they were. *)
Theorem fetch_failure_keeps_marker :
  forall lat lon name p,
    let r := fetchWeatherData_finish lat lon name Failure p in
    fst r = Ok tt /\ weatherError (snd r) = Some fetch_error_msg /\
    weatherLoading (snd r) = false /\
    viewerRef (snd r) = viewerRef p /\ weatherEntityRef (snd r) = weatherEntityRef p /\
    weatherData (snd r) = weatherData p /\ selectedLocation (snd r) = selectedLocation p /\
    activeLayer (snd r) = activeLayer p /\ error (snd r) = error p.
Proof. intros lat lon name p. destruct p. repeat split. Qed.

(** ** C8 *)

Lemma vshape_vdead p q : vshape q = vshape p -> vdead q = vdead p.
Proof.
  unfold vshape, vdead. destruct (viewerRef p), (viewerRef q); cbn; intros H;
    inversion H; reflexivity.
Qed.

Lemma keeps_vshape_vdead {A} (m : M page A) : keeps vshape m -> keeps vdead m.
Proof. intros H p. apply vshape_vdead, H. Qed.

Lemma no_dead_vdead p q : vdead q = vdead p -> no_dead p -> no_dead q.
Proof.
  unfold vdead, no_dead. destruct (viewerRef p), (viewerRef q); cbn; intros H;
    inversion H; auto.
Qed.

Lemma keeps_fetch_finish_vdead lat lon n r : keeps vdead (fetchWeatherData_finish lat lon n r).
Proof.
  unfold fetchWeatherData_finish. frame. apply keeps_marker_vdead.
Qed.

Lemma no_dead_step ev p : no_dead p -> no_dead (snd (step_event ev p)).
Proof.
  intros Hp. destruct ev as [|o|snap lat lon|lat lon n r]; cbn [step_event].
  - destruct p as [[[[] ] |] ? ? ? ? ? ? ? ? ?]; reflexivity.
  - destruct o; cbn [run_op].
    1-5: apply (no_dead_vdead p); [apply keeps_vshape_vdead | exact Hp].
    + apply keeps_zoom_in_vshape.
    + apply keeps_zoom_out_vshape.
    + apply keeps_switch_v1_vshape.
    + apply keeps_switch_v2_vshape.
    + apply keeps_switch_v3_vshape.
    + apply (no_dead_vdead p); [apply keeps_marker_vdead | exact Hp].
    + destruct p as [[[[] ] |] ? ? ? ? ? ? ? ? ?]; exact I || exact Hp.
  - apply (no_dead_vdead p); [|exact Hp]. apply keeps_vshape_vdead.
    apply keeps_bind; [apply keeps_fetch_start_vshape | intros; apply keeps_ret].
  - apply (no_dead_vdead p); [apply keeps_fetch_finish_vdead | exact Hp].
Qed.

Lemma no_dead_run evs : forall p, no_dead p -> no_dead (run_events p evs).
Proof.
  induction evs as [|ev evs IH]; intros p Hp; [exact Hp|].
  cbn [run_events]. apply IH, no_dead_step, Hp.
Qed.

Lemma cleanup_no_dead p : no_dead p -> cleanup p = (Ok tt, set_viewerRef None p).
Proof.
  unfold no_dead. destruct p as [[[[] ] |] ? ? ? ? ? ? ? ? ?]; cbn; intros H;
    try discriminate; reflexivity.
Qed.

Lemma ops_after_teardown o p : run_op o (set_viewerRef None p) = (Ok tt, set_viewerRef None p).
Proof. destruct p, o; reflexivity. Qed.

(** C8.  On any state the page can reach, the teardown ends normally and
    leaves [viewerRef] empty; from there a second teardown, a zoom, any
    layer switch and a weather marker all end normally and change
    nothing. *)
Theorem teardown_idempotent :
  forall evs o,
    let p := run_events page_initial evs in
    let p1 := snd (cleanup p) in
    fst (cleanup p) = Ok tt /\ cleanup p1 = (Ok tt, p1) /\ run_op o p1 = (Ok tt, p1).
Proof.
  intros evs o. cbv zeta.
  assert (H : no_dead (run_events page_initial evs)) by (apply no_dead_run; exact I).
  rewrite (cleanup_no_dead _ H). cbn [fst snd].
  split; [reflexivity | split].
  - apply (ops_after_teardown OpTeardown).
  - apply ops_after_teardown.
Qed.

(** ** C9 *)

Lemma try_catch_default {S A} (m : M S A) (a : A) s :
  try_catch m (fun _ => ret a) s
  = (match fst (m s) with Ok v => Ok v | Exc _ => Ok a end, snd (m s)).
Proof. unfold try_catch. destruct (m s) as [[v|e] s']; reflexivity. Qed.

(** C9.  The three WebGL probes never throw: each answers what its body
    answers, and [false] whenever its body throws (canvas creation or
    [getContext] failing). *)
Theorem probe_fails_closed :
  forall pe,
    isWebGLSupported_v1 pe tt
      = (match fst (probe_body_v1 pe tt) with Ok v => Ok v | Exc _ => Ok JFalse end, tt) /\
    isWebGLSupported_v3 pe tt
      = (match fst (probe_body_v3 pe tt) with Ok v => Ok v | Exc _ => Ok JFalse end, tt) /\
    checkWebGLSupport pe tt
      = (match fst (probe_body_simple pe tt) with Ok v => Ok v | Exc _ => Ok JFalse end, tt).
Proof.
  intros pe. unfold isWebGLSupported_v1, isWebGLSupported_v3, checkWebGLSupport.
  rewrite !try_catch_default. destruct (snd (probe_body_v1 pe tt)),
    (snd (probe_body_v3 pe tt)), (snd (probe_body_simple pe tt)).
  repeat split.
Qed.

(** ** C10 *)

(** C10.  The guard of fetchWeatherData reads the [weatherLoading] of the
    render that created the calling closure.  The LEFT_CLICK handler and
    the India fetch are created by the mount effect, whose snapshot is
    [false]: after the India fetch has started (the flag is now [true]), a
    click still issues a second weather request.  Called with a snapshot
    that is [true], the function does return at once and changes nothing. *)
Theorem stale_loading_guard :
  (forall lat lon p, fetchWeatherData_start true lat lon p = (Ok false, p)) /\
  mount_snapshot = false /\
  (let p0 := run_events page_initial [EvMount] in
   let r1 := fetchWeatherData_start mount_snapshot india_lat india_lon p0 in
   let r2 := click_fetch 10 20 (snd r1) in
   weatherLoading (snd r1) = true /\ fst r2 = Ok true /\
   requests (snd r2) = [(india_lat, india_lon); (10%Q, 20%Q)]).
Proof.
  split; [reflexivity | split; [reflexivity |]].
  split; [reflexivity | split; reflexivity].
Qed.

(** * Further properties of the code around the claims *)

Lemma lookup_code_in code l d : lookup_code code l = Some d -> In code (map fst l).
Proof.
  induction l as [|[k d'] l IH]; cbn; [discriminate|].
  destruct (Z.eqb_spec k code); auto.
Qed.

(** Every weather code that [getWeatherDescription]
    describes gets a specific icon from the first component's
    [getWeatherIconUrl], never the [unknown.png] default. *)
Theorem described_codes_have_icons :
  forall code, getWeatherDescription code <> "Unknown" -> getWeatherIconUrl code <> unknown_icon_url.
Proof.
  intros code H. unfold getWeatherDescription in H.
  destruct (lookup_code code weatherCodes) eqn:E; [|congruence].
  apply lookup_code_in in E. cbn in E.
  repeat (destruct E as [<- | E]; [cbv; discriminate|]). destruct E.
Qed.

Lemma described_codes_have_icons_witness :
  getWeatherDescription 61 <> "Unknown" /\ getWeatherIconUrl 61 <> unknown_icon_url.
Proof.
  assert (H : getWeatherDescription 61 <> "Unknown") by (cbv; discriminate).
  split; [exact H | exact (described_codes_have_icons 61 H)].
Defined.

(** Every weather code that [getWeatherDescription]
    describes is below 300, so the second component's [getWeatherIconUrl]
    shows the thunderstorm icon [386.png] for all of them. *)
Theorem described_codes_get_thunder_icon_v3 :
  forall code, getWeatherDescription code <> "Unknown" ->
    getWeatherIconUrl_v3 code = "https://cdn.weatherapi.com/weather/64x64/day/386.png".
Proof.
  intros code H. unfold getWeatherDescription in H.
  destruct (lookup_code code weatherCodes) eqn:E; [|congruence].
  apply lookup_code_in in E. cbn in E.
  repeat (destruct E as [<- | E]; [reflexivity|]). destruct E.
Qed.

Lemma described_codes_get_thunder_icon_v3_witness :
  getWeatherDescription 0%Z <> "Unknown" /\
  getWeatherIconUrl_v3 0%Z = "https://cdn.weatherapi.com/weather/64x64/day/386.png".
Proof.
  assert (H : getWeatherDescription 0%Z <> "Unknown") by (cbv; discriminate).
  split; [exact H | exact (described_codes_get_thunder_icon_v3 0%Z H)].
Defined.

Lemma try_catch_ok_unit {S} (m : M S unit) h s :
  (forall e s', fst (h e s') = Ok tt) -> fst (try_catch m h s) = Ok tt.
Proof. intros H. unfold try_catch. destruct (m s) as [[[]|e] s']; [reflexivity | apply H]. Qed.

(** The first component's [switchImageryLayer] never lets
    an exception escape, whatever the layer name, the page state or the
    providers do. *)
Theorem switch_v1_never_throws : forall E name p, fst (switchImageryLayer_v1 E name p) = Ok tt.
Proof.
  intros E name [[[[] ls es h fl mt rn]|] al er wr wd wl we sl rq nid]; try reflexivity.
  unfold switchImageryLayer_v1, clear_layers_v1, modify_layers, bind, gets, modify, the_viewer.
  cbn -[switch_body_v1 add_ion remove_above_base try_catch].
  apply try_catch_ok_unit. intros e s'. apply try_catch_ok_unit. reflexivity.
Qed.

(** In the first component, when only Ion imagery can be
    built, switching to an overlay layer keeps the bottom layer and stacks
    the Ion base imagery twice: once as the base and once as the overlay's
    fallback. *)
Theorem switch_v1_overlay_failure_doubles_base :
  forall E name p v x xs,
    (forall pr, ctor_ok E pr = match pr with IonImagery _ => true | _ => false end) ->
    In (decode name) [NRadar; NPrecipitation; NWind; NTemperature; NHumidity; NPressure] ->
    viewerRef p = Some v -> v_destroyed v = false -> v_layers v = x :: xs ->
    NoDup (map lid (x :: xs)) ->
    layers_of (snd (switchImageryLayer_v1 E name p)) =
      Some [x; mkLayer (next_id p) (IonImagery 2) 1; mkLayer (S (next_id p)) (IonImagery 2) 1].
Proof.
  intros E name [vr al er wr wd wl we sl rq nid] v x xs HE Hn Hv Hd Hl Hnd.
  simpl in Hv; subst vr. destruct v as [d ls es h fl mat rn]; simpl in Hd, Hl; subst d ls.
  unfold switchImageryLayer_v1, switch_body_v1, add_ion, base_and_overlay,
    clear_layers_v1, modify_layers, add_provider, set_alpha.
  cbn. rewrite remove_above_base_single by (auto; simpl; lia).
  cbn in Hn. repeat destruct Hn as [Hn | Hn]; try contradiction; rewrite <- Hn;
    cbn; rewrite !HE; reflexivity.
Qed.

(** The part_007 [switchImageryLayer] throws exactly when
    a live viewer exists and neither the GIBS true-colour provider nor the
    NaturalEarthII fallback can be built. *)
Theorem switch_v2_throws_iff :
  forall E name p,
    fst (switchImageryLayer_v2 E name p) =
      if live p && negb (ctor_ok E GibsTrueColor) && negb (ctor_ok E (NaturalEarthII None))
      then Exc ProviderError else Ok tt.
Proof.
  intros E name [[[[] ls es h fl mt rn]|] al er wr wd wl we sl rq nid]; try reflexivity.
  unfold switchImageryLayer_v2, clear_layers_front, modify_layers, add_provider.
  cbn -[overlay_v2 request_render remove_from_front try_catch].
  unfold try_catch at 1 2. cbn -[overlay_v2 request_render remove_from_front try_catch].
  destruct (ctor_ok E GibsTrueColor), (ctor_ok E (NaturalEarthII None)); cbn -[overlay_v2 request_render remove_from_front try_catch];
    try reflexivity; apply try_catch_ok_unit; reflexivity.
Qed.

(** The second component's [switchLayer] never throws;
    when the NaturalEarthII base cannot be built on a live viewer it sets
    the switch error message and leaves the viewer with no imagery layers
    at all. *)
Theorem switch_v3_base_failure :
  forall E name p,
    fst (switchLayer_v3 E name p) = Ok tt /\
    (forall v, viewerRef p = Some v -> v_destroyed v = false ->
       ctor_ok E natural_earth_5 = false ->
       error (snd (switchLayer_v3 E name p))
         = Some "Failed to switch to the selected layer. Please try again." /\
       layers_of (snd (switchLayer_v3 E name p)) = Some []).
Proof.
  intros E name p. split.
  - apply try_catch_ok_unit. reflexivity.
  - intros v Hv Hd Hc. destruct p as [vr al er wr wd wl we sl rq nid].
    simpl in Hv; subst vr. destruct v as [d ls es h fl mat rn]; simpl in Hd; subst d.
    unfold switchLayer_v3, base_and_overlay, clear_layers_front, modify_layers, add_provider.
    unfold try_catch, bind, gets, modify, the_viewer. cbn. rewrite remove_from_front_empty by lia.
    destruct (decode name); cbn; rewrite Hc; split; reflexivity.
Qed.

(** When every provider can be built, the second
    component's [switchLayer] leaves the error unchanged and the viewer
    with the new NaturalEarthII base first, followed by at most one
    overlay. *)
Theorem switch_v3_success_shape :
  forall E name p v,
    (forall pr, ctor_ok E pr = true) -> viewerRef p = Some v -> v_destroyed v = false ->
    fst (switchLayer_v3 E name p) = Ok tt /\
    error (snd (switchLayer_v3 E name p)) = error p /\
    exists rest,
      layers_of (snd (switchLayer_v3 E name p))
        = Some (mkLayer (next_id p) natural_earth_5 1 :: rest) /\ length rest <= 1.
Proof.
  intros E name [vr al er wr wd wl we sl rq nid] v HE Hv Hd.
  simpl in Hv; subst vr. destruct v as [d ls es h fl mat rn]; simpl in Hd; subst d.
  unfold switchLayer_v3, base_and_overlay, clear_layers_front, modify_layers, add_provider,
    set_alpha.
  unfold try_catch, bind, gets, modify, the_viewer. cbn. rewrite remove_from_front_empty by lia.
  assert (Hn : (nid =? S nid) = false) by (apply Nat.eqb_neq; lia).
  destruct (decode name); cbn; rewrite !HE; cbn; rewrite ?Hn;
    (split; [reflexivity | split; [reflexivity | eexists; split; [reflexivity | cbn; lia]]]).
Qed.

(** loader *)

Lemma fulfilled_sound_settle v s :
  fulfilled_sound s -> (v = Fulfilled -> cesium s = true) -> fulfilled_sound (settle v s).
Proof.
  intros H Hv. unfold settle. destruct (ready s) eqn:Er; try exact H. destruct H as [H1 H2].
  split; cbn.
  - exact Hv.
  - intros Hin. apply in_map_iff in Hin as [w [Hw Hin]].
    destruct w as [b|].
    + injection Hw as ->. apply H2, Hin.
    + destruct v; cbn in Hw; try discriminate. apply Hv; reflexivity.
Qed.

Lemma fulfilled_sound_step e s : fulfilled_sound s -> fulfilled_sound (loader_step e s).
Proof.
  intros H. pose proof H as [H1 H2].
  destruct e as [| k d | k | |]; cbn [loader_step].
  - destruct (loaded s); [exact H | exact H].
  - destruct (nth_error (tags s) k) as [src|]; [|exact H].
    assert (Hc : fulfilled_sound (set_cesium d s)).
    { split; cbn; intros X; rewrite ?H1, ?H2 by exact X; reflexivity. }
    unfold on_script_load. destruct (String.eqb src primary_src);
      destruct (cesium (set_cesium d s)) eqn:Ec.
    + apply fulfilled_sound_settle; [exact Hc | intros _; exact Ec].
    + exact Hc.
    + apply fulfilled_sound_settle; [exact Hc | intros _; exact Ec].
    + apply fulfilled_sound_settle; [exact Hc | discriminate].
  - destruct (nth_error (tags s) k) as [src|]; [|exact H].
    unfold on_script_error. destruct (String.eqb src primary_src);
      [exact H | apply fulfilled_sound_settle; [exact H | discriminate]].
  - destruct (loaded s); [exact H|]. destruct (cesium s) eqn:Ec.
    + apply fulfilled_sound_settle; [exact H | intros _; exact Ec].
    + apply fulfilled_sound_settle; [exact H | discriminate].
  - destruct (cesium s && loaded s) eqn:Ecl.
    + split; [exact H1|]. cbn. intros _. apply andb_true_iff in Ecl. apply Ecl.
    + split; [exact H1|]. cbn. intros Hin. apply in_app_or in Hin as [Hin | [Hin | []]].
      * apply H2, Hin.
      * apply H1. destruct (ready s); cbn in Hin; congruence.
Qed.

(** The loader fulfils [CESIUM_READY], or answers [true]
    to a [waitForCesium] call, only when [window.Cesium] is defined. *)
Theorem loader_fulfilled_only_with_cesium :
  forall c evs,
    (ready (run_loader (loader_init c) evs) = Fulfilled ->
     cesium (run_loader (loader_init c) evs) = true) /\
    (In (Some true) (waiters (run_loader (loader_init c) evs)) ->
     cesium (run_loader (loader_init c) evs) = true).
Proof.
  intros c evs.
  assert (H0 : fulfilled_sound (loader_init c)).
  { destruct c; split; cbn; intros X; try reflexivity; try discriminate; destruct X. }
  revert H0. generalize (loader_init c). induction evs as [|e evs IH]; intros s Hs.
  - exact Hs.
  - apply IH, fulfilled_sound_step, Hs.
Qed.

Lemma loader_fulfilled_only_with_cesium_witness :
  ready (run_loader (loader_init false) [AwaitReady; ScriptLoad 0 true]) = Fulfilled /\
  In (Some true) (waiters (run_loader (loader_init false) [AwaitReady; ScriptLoad 0 true])) /\
  cesium (run_loader (loader_init false) [AwaitReady; ScriptLoad 0 true]) = true.
Proof.
  assert (H1 : ready (run_loader (loader_init false) [AwaitReady; ScriptLoad 0 true]) = Fulfilled)
    by reflexivity.
  split; [exact H1 | split; [cbn; left; reflexivity |]].
  exact (proj1 (loader_fulfilled_only_with_cesium false [AwaitReady; ScriptLoad 0 true]) H1).
Defined.


(** boot *)

(** The part_007 [initCesium] never throws and injects no
    script: it waits for the library, probes WebGL only if the library is
    ready, and constructs a viewer only when WebGL, the container and
    [Cesium.Ion] are all available. *)
Theorem initCesium_v2_trace :
  forall be b,
    let r := initCesium_v2 be b in
    fst r = Ok tt /\ b_tags (snd r) = b_tags b /\
    b_log (snd r) = b_log b ++ AWaitLibrary ::
      (if library_ready be
       then AProbe :: (if webgl be && container be && ion_ok be then [AConstructViewer] else [])
       else []) /\
    b_viewer (snd r)
      = b_viewer b || (library_ready be && webgl be && container be && ion_ok be && viewer_ok be).
Proof.
  intros [[] sl sd [] [] [] []] [c tg [] er ld lg]; cbn;
    repeat split; rewrite <- ?app_assoc, ?app_nil_r; reflexivity.
Qed.

(** probes *)

(** The two [isWebGLSupported] probes lead to the same
    decision in every browser, and where [window.WebGLRenderingContext]
    exists the second one returns exactly what [checkWebGLSupport]
    returns. *)
Theorem probes_same_decision :
  forall pe,
    probe_answer (isWebGLSupported_v1 pe) = probe_answer (isWebGLSupported_v3 pe) /\
    (has_WebGLRenderingContext pe = true ->
     isWebGLSupported_v3 pe tt = checkWebGLSupport pe tt).
Proof.
  intros [cc hw gc].
  unfold probe_answer, isWebGLSupported_v1, isWebGLSupported_v3, checkWebGLSupport,
    probe_body_v1, probe_body_v3, probe_body_simple, js_and, js_or, window_WGL, lift.
  cbn. destruct cc as [[]|e]; cbn; [|split; [reflexivity | intros _; reflexivity]].
  destruct hw; cbn; [|split; [reflexivity | discriminate]].
  destruct (gc "webgl") as [[]|e]; cbn;
    try (destruct (gc "experimental-webgl") as [[]|e']; cbn);
    split; try reflexivity; intros _; reflexivity.
Qed.


Lemma probes_same_decision_witness :
  probe_answer (isWebGLSupported_v1 pe_experimental) = probe_answer (isWebGLSupported_v3 pe_experimental) /\
  has_WebGLRenderingContext pe_experimental = true /\
  isWebGLSupported_v3 pe_experimental tt = checkWebGLSupport pe_experimental tt.
Proof.
  split; [exact (proj1 (probes_same_decision pe_experimental)) |].
  split; [reflexivity | exact (proj2 (probes_same_decision pe_experimental) eq_refl)].
Defined.

(** stylized globe *)

Lemma js_mod_360_bound x : (-360 < js_mod x 360 /\ js_mod x 360 < 360)%Q.
Proof.
  unfold js_mod, js_trunc.
  set (q := (x / 360)%Q).
  assert (Hq : (x == 360 * q)%Q) by (unfold q; field).
  destruct (Qle_bool 0 q) eqn:E.
  - apply Qle_bool_iff in E.
    pose proof (Qfloor_le q) as H1. pose proof (Qlt_floor q) as H2.
    rewrite inject_Z_plus in H2. change (inject_Z 1) with 1%Q in H2.
    set (z := inject_Z (Qfloor q)) in *. split; lra.
  - assert (E' : (q < 0)%Q).
    { apply Qnot_le_lt. intros X. apply Qle_bool_iff in X. congruence. }
    pose proof (Qfloor_le (- q)) as H1. pose proof (Qlt_floor (- q)) as H2.
    rewrite inject_Z_plus in H2. change (inject_Z 1) with 1%Q in H2.
    rewrite inject_Z_opp.
    set (z := inject_Z (Qfloor (- q))) in *. split; lra.
Qed.


Lemma st_bound_step e s : random_ok e -> st_bound s -> st_bound (st_step e s).
Proof.
  intros He Hs. destruct e as [| x | x | | u]; cbn.
  - destruct (isDragging s); [exact Hs | apply js_mod_360_bound].
  - exact Hs.
  - destruct (isDragging s); [apply js_mod_360_bound | exact Hs].
  - exact Hs.
  - cbn in He. unfold st_bound; cbn. destruct He. split; lra.
Qed.

(** The stylized globe's rotation stays strictly between
    -360 and 360 degrees under any sequence of ticks, drags and random
    views. *)
Theorem rotation_stays_within_turn :
  forall evs, Forall random_ok evs ->
    (-360 < rotation (run_st stylized_initial evs) /\ rotation (run_st stylized_initial evs) < 360)%Q.
Proof.
  intros evs H. change (st_bound (run_st stylized_initial evs)).
  assert (H0 : st_bound stylized_initial) by (unfold st_bound; cbn; split; lra).
  revert H0. generalize stylized_initial. induction H as [|e evs He Hevs IH]; intros s Hs.
  - exact Hs.
  - apply IH, st_bound_step; assumption.
Qed.

Lemma rotation_stays_within_turn_witness :
  Forall random_ok [StMouseDown 900; StMouseMove 0; StMouseUp; StTick; StRandomView (1 # 2)] /\
  (-360 < rotation (run_st stylized_initial
            [StMouseDown 900; StMouseMove 0; StMouseUp; StTick; StRandomView (1 # 2)]) /\
   rotation (run_st stylized_initial
            [StMouseDown 900; StMouseMove 0; StMouseUp; StTick; StRandomView (1 # 2)]) < 360)%Q.
Proof.
  assert (H : Forall random_ok
                [StMouseDown 900; StMouseMove 0; StMouseUp; StTick; StRandomView (1 # 2)]).
  { repeat constructor; cbn; lra. }
  split; [exact H | exact (rotation_stays_within_turn _ H)].
Defined.

(** SimpleEarthViewer *)

Lemma sv_inv_no_container s : sv_inv s -> sv_container s = false.
Proof.
  intros [[Hl | He] _]; unfold sv_container; rewrite ?Hl; [reflexivity|].
  destruct (sv_error s); [|congruence]. rewrite andb_false_r. reflexivity.
Qed.

Lemma sv_inv_init ok msg s : sv_inv s -> initCesium_simple ok msg s = s.
Proof. intros H. unfold initCesium_simple. rewrite (sv_inv_no_container s H). reflexivity. Qed.

Lemma sv_inv_step e s : sv_inv s -> sv_inv (sv_step e s).
Proof.
  intros H. pose proof H as [Hl Hv].
  destruct s as [l er w c sc vw]; cbn in Hl, Hv.
  destruct e as [w' ok msg | d ok msg | | cl |]; cbn [sv_step].
  - destruct w'; cbn.
    + destruct c; [rewrite sv_inv_init; exact H|].
      split; assumption.
    + split; [right; discriminate | exact Hv].
  - rewrite sv_inv_init; exact H.
  - split; [right; discriminate | exact Hv].
  - destruct cl; [split; [right; discriminate | exact Hv] | exact H].
  - cbn. subst vw. exact H.
Qed.

(** SimpleEarthViewer never constructs a Cesium viewer and
    never reaches the render branch that mounts its container:
    [initCesium] always returns early, so the page shows the spinner or
    the stylized fallback. *)
Theorem simple_viewer_never_built :
  forall c evs,
    sv_viewers (run_sv (sv_initial c) evs) = 0 /\
    sv_container (run_sv (sv_initial c) evs) = false.
Proof.
  intros c evs.
  assert (H : sv_inv (run_sv (sv_initial c) evs)).
  { assert (H0 : sv_inv (sv_initial c)) by (split; [left|]; reflexivity).
    revert H0. generalize (sv_initial c). induction evs as [|e evs IH]; intros s Hs.
    - exact Hs.
    - apply IH, sv_inv_step, Hs. }
  split; [apply H | apply sv_inv_no_container, H].
Qed.


Lemma switch_v1_overlay_failure_doubles_base_witness :
  layers_of (snd (switchImageryLayer_v1 E_ion "Temperature" (page_with [L0] 1))) =
    Some [L0; mkLayer 1 (IonImagery 2) 1; mkLayer 2 (IonImagery 2) 1].
Proof.
  apply (switch_v1_overlay_failure_doubles_base E_ion "Temperature" (page_with [L0] 1)
           (viewer_with [L0]) L0 []).
  - intros pr. reflexivity.
  - cbn. auto 10.
  - reflexivity.
  - reflexivity.
  - reflexivity.
  - repeat constructor; cbn; tauto.
Defined.

Lemma switch_v3_base_failure_witness :
  fst (switchLayer_v3 E_fail "Terrain" (page_with [L0] 1)) = Ok tt /\
  error (snd (switchLayer_v3 E_fail "Terrain" (page_with [L0] 1)))
    = Some "Failed to switch to the selected layer. Please try again." /\
  layers_of (snd (switchLayer_v3 E_fail "Terrain" (page_with [L0] 1))) = Some [].
Proof.
  destruct (switch_v3_base_failure E_fail "Terrain" (page_with [L0] 1)) as [H1 H2].
  split; [exact H1 | exact (H2 (viewer_with [L0]) eq_refl eq_refl eq_refl)].
Defined.

Lemma switch_v3_success_shape_witness :
  fst (switchLayer_v3 E_ok "Terrain" (page_with [L0] 1)) = Ok tt /\
  error (snd (switchLayer_v3 E_ok "Terrain" (page_with [L0] 1))) = error (page_with [L0] 1) /\
  exists rest,
    layers_of (snd (switchLayer_v3 E_ok "Terrain" (page_with [L0] 1)))
      = Some (mkLayer 1 natural_earth_5 1 :: rest) /\ length rest <= 1.
Proof.
  exact (switch_v3_success_shape E_ok "Terrain" (page_with [L0] 1) (viewer_with [L0])
           (fun _ => eq_refl) eq_refl eq_refl).
Defined.


Lemma poll_cesium_shape be n : forall c0 tg v e l lg,
  exists c, poll_cesium be n (mkBoot c0 tg v e l lg) = (Ok tt, mkBoot (c0 || c) tg v e l lg).
Proof.
  induction n as [|n IH]; intros c0 tg v e l lg.
  - exists false. rewrite orb_false_r. reflexivity.
  - cbn [poll_cesium]. unfold bind, gets, modify, ret.
    generalize (cesium_by be (50 - S n)) as x. intros x. cbn.
    destruct c0; [exists false; reflexivity|].
    unfold bset_cesium; cbn [b_cesium b_tags b_viewer b_error b_loading b_log orb].
    destruct (IH x tg v e l lg) as [c Hc]. rewrite Hc. exists (x || c). reflexivity.
Qed.

Lemma poll_cesium_result be n b :
  exists c, poll_cesium be n b
    = (Ok tt, mkBoot (b_cesium b || c) (b_tags b) (b_viewer b) (b_error b) (b_loading b) (b_log b)).
Proof. destruct b as [c0 tg v e l lg]. apply poll_cesium_shape. Qed.

Ltac poll_out :=
  match goal with
  | |- context [poll_cesium ?be ?n ?b] =>
      let cx := fresh "cx" in let Hp := fresh "Hp" in
      destruct (poll_cesium_result be n b) as [cx Hp]; rewrite Hp; cbn;
      try destruct cx
  end.

(** The second component's [initCesium] never throws and appends
    '/cesium/Cesium.js' only when WebGL works and window.Cesium is
    undefined.  It keeps an existing viewer, and a new viewer needs WebGL,
    [Cesium.Ion], the container and a constructor that does not throw.
    Without [Cesium.Ion] no viewer is built and an error is shown.  With
    the library already loaded and everything available, the viewer is
    built, the spinner goes off and no error is set. *)
Theorem initCesium_v3_outcome :
  forall be b,
    let r := initCesium_v3 be b in
    fst r = Ok tt /\
    b_tags (snd r) = b_tags b ++ (if webgl be && negb (b_cesium b) then [cesium_script_src] else []) /\
    (b_viewer b = true -> b_viewer (snd r) = true) /\
    (b_viewer (snd r) = true ->
       b_viewer b = true \/ (webgl be && ion_ok be && container be && viewer_ok be) = true) /\
    (webgl be = true -> ion_ok be = false ->
       b_viewer (snd r) = b_viewer b /\ b_error (snd r) <> None /\ b_loading (snd r) = false) /\
    (webgl be = true -> b_cesium b = true -> ion_ok be = true -> container be = true ->
     viewer_ok be = true -> b_viewer b = false ->
       b_viewer (snd r) = true /\ b_loading (snd r) = false /\ b_error (snd r) = b_error b).
Proof.
  intros [[] [] [] lr [] [] [] cb] [[] tg [] er ld lg];
    unfold initCesium_v3, fail_with, probe_step, construct_viewer, try_catch, bind, gets,
      modify, ret, throw; cbn -[poll_cesium];
    repeat poll_out;
    repeat split; rewrite <- ?app_assoc, ?app_nil_r; try reflexivity; try discriminate;
    intros; try discriminate; auto.
Qed.

Lemma initCesium_v3_outcome_witness :
  b_viewer (snd (initCesium_v3 be_ready boot_loaded)) = true /\
  b_viewer (snd (initCesium_v3 be_no_ion boot_initial)) = false /\
  b_error (snd (initCesium_v3 be_no_ion boot_initial)) <> None.
Proof.
  destruct (initCesium_v3_outcome be_ready boot_loaded) as (_ & _ & _ & _ & _ & H6).
  destruct (initCesium_v3_outcome be_no_ion boot_initial) as (_ & _ & _ & _ & H5 & _).
  destruct (H5 eq_refl eq_refl) as (Hv & He & _).
  split; [exact (proj1 (H6 eq_refl eq_refl eq_refl eq_refl eq_refl eq_refl)) |].
  split; [exact Hv | exact He].
Defined.
